(** * CustomDashboardWriter: the self-hosted dependency-dashboard issue writer

    A shallow embedding of [lib/workers/global/CustomDashboardWriter.ts]
    and the properties of its issue reconciliation logic.

    The module talks to an issue tracker through an HTTP client.  The
    client, the sanitizer and the logger are collaborators: the HTTP
    client is an arbitrary state machine answering each request with a
    JSON body or with a thrown [Error]; the sanitizer is an arbitrary
    function on strings; the logger only records entries.  Every
    operation is a computation in a monad that threads the module state,
    may end in a thrown exception, and emits the requests and log entries
    it performs, in order. *)

From Stdlib Require Import String List ZArith Bool Lia.
From Stdlib Require Import DecimalString DecimalPos DecimalZ.
Import ListNotations.
Local Open Scope string_scope.

(** ** JavaScript values *)

Module Js.

(** The values a parsed JSON body can hold, plus [undefined], which
    property access produces for an absent key.  Numbers are the integers
    that the tracker uses for [iid]. *)
#[warnings="-register-all"]
Inductive JsVal : Type :=
| JUndefined
| JNull
| JBool (b : bool)
| JNum (n : Z)
| JStr (s : string)
| JArr (items : list JsVal)
| JObj (fields : list (string * JsVal)).

(** A thrown [Error].  Whatever is thrown here is an [Error] object with
    a message string: the HTTP client throws [Error]s, and a property read
    on [null] or [undefined] throws a [TypeError].  The code reads nothing
    of it but [message]. *)
Record Error : Type := mkError { message : string }.

Definition TypeError (msg : string) : Error := mkError msg.

Fixpoint assoc (k : string) (fields : list (string * JsVal)) : option JsVal :=
  match fields with
  | [] => None
  | (k', v) :: rest => if String.eqb k k' then Some v else assoc k rest
  end.

(** [v.k] for the keys the module reads ([iid], [title], [description]):
    a TypeError on [undefined] and [null], the field of an object, and
    [undefined] on everything else (no prototype defines these keys). *)
Definition getProp (v : JsVal) (k : string) : Error + JsVal :=
  match v with
  | JUndefined =>
      inl (TypeError ("Cannot read properties of undefined (reading '" ++ k ++ "')"))
  | JNull =>
      inl (TypeError ("Cannot read properties of null (reading '" ++ k ++ "')"))
  | JObj fields =>
      inr (match assoc k fields with Some x => x | None => JUndefined end)
  | _ => inr JUndefined
  end.

(** [a === b].  Arrays and objects compare by reference; the module only
    compares a field of a freshly parsed body with a string or with
    [undefined], so two references are never the same one. *)
Definition strictEq (a b : JsVal) : bool :=
  match a, b with
  | JUndefined, JUndefined => true
  | JNull, JNull => true
  | JBool x, JBool y => Bool.eqb x y
  | JNum x, JNum y => Z.eqb x y
  | JStr x, JStr y => String.eqb x y
  | _, _ => false
  end.

(** [Array.isArray]. *)
Definition isArray (v : JsVal) : bool :=
  match v with JArr _ => true | _ => false end.

(** [`${v}`]: the string a template literal interpolates; an integer
    prints in decimal, as JS prints those of fewer than 22 digits. *)
Fixpoint toString (v : JsVal) : string :=
  match v with
  | JUndefined => "undefined"
  | JNull => "null"
  | JBool true => "true"
  | JBool false => "false"
  | JNum n => NilZero.string_of_int (Z.to_int n)
  | JStr s => s
  | JArr items =>
      let element x :=
        match x with
        | JUndefined | JNull => EmptyString
        | _ => toString x
        end in
      (fix join (l : list JsVal) : string :=
         match l with
         | [] => EmptyString
         | [x] => element x
         | x :: rest => element x ++ "," ++ join rest
         end) items
  | JObj _ => "[object Object]"
  end.

(** [s.startsWith(p)]. *)
Definition startsWith (s p : string) : bool := String.prefix p s.

(** An optional string argument: absent means [undefined]. *)
Definition ofOptString (o : option string) : JsVal :=
  match o with Some s => JStr s | None => JUndefined end.

End Js.
Import Js.

(** ** The HTTP collaborator *)

(** The options object handed to [getJson], [postJson] and [putJson]. *)
Record HttpOptions : Type := mkOptions {
  baseUrl : option string;
  useCache : option bool;
  body : option JsVal
}.

Inductive Request : Type :=
| GetJson (url : string) (options : HttpOptions)
| PostJson (url : string) (options : HttpOptions)
| PutJson (url : string) (options : HttpOptions).

(** What a request comes back with: a response body, or a thrown error. *)
Inductive Outcome : Type :=
| Returns (responseBody : JsVal)
| Throws (err : Error).

Definition isGet (r : Request) : bool :=
  match r with GetJson _ _ => true | _ => false end.
Definition isPost (r : Request) : bool :=
  match r with PostJson _ _ => true | _ => false end.
Definition isPut (r : Request) : bool :=
  match r with PutJson _ _ => true | _ => false end.
(** A mutation of the tracker: every request but a GET. *)
Definition isMutation (r : Request) : bool := negb (isGet r).

Definition optionsOf (r : Request) : HttpOptions :=
  match r with GetJson _ o | PostJson _ o | PutJson _ o => o end.

(** ** The logger *)

Inductive Level : Type := Debug | Info | Warn.

Record SelfHostIssue : Type := mkIssue { iid : JsVal; title : JsVal }.

(** The structured context object of a log call. *)
Inductive LogContext : Type :=
| NoContext
| CtxResponseBody (responseBody : JsVal)
| CtxIssue (issue : SelfHostIssue)
| CtxErr (err : Error)
| CtxErrNumber (err : Error) (number : JsVal).

Record LogEntry : Type := mkLog {
  level : Level;
  context : LogContext;
  text : string
}.

(** ** What a computation does, in order *)

Inductive Event : Type :=
| Http (request : Request) (outcome : Outcome)
| Log (entry : LogEntry).

Fixpoint requests (evs : list Event) : list Request :=
  match evs with
  | [] => []
  | Http r _ :: rest => r :: requests rest
  | Log _ :: rest => requests rest
  end.

Fixpoint logs (evs : list Event) : list LogEntry :=
  match evs with
  | [] => []
  | Http _ _ :: rest => logs rest
  | Log e :: rest => e :: logs rest
  end.

(** The errors the collaborator threw during a run. *)
Fixpoint thrown (evs : list Event) : list Error :=
  match evs with
  | [] => []
  | Http _ (Throws e) :: rest => e :: thrown rest
  | _ :: rest => thrown rest
  end.

(** ** Configuration and results *)

Module Config.
(** Modelled from the spec: [RenovateConfig] of [config/types], which is
    not among the sources; the configuration holds a dashboard URL and a
    repository identifier, and either may be absent. *)
Record RenovateConfig : Type := mkConfig {
  dependencyDashboardUrl : option string;
  repository : option string
}.
End Config.
Definition RenovateConfig : Type := Config.RenovateConfig.

(** Modelled from the spec: [EnsureIssueConfig] of [platform], which is
    not among the sources; the input of [ensureIssue] is
    [{ title, reuseTitle, body }], where [reuseTitle], the alternate title,
    may also be left out and is then [undefined]. *)
Record EnsureIssueConfig : Type := mkEnsure {
  ensureTitle : string;
  reuseTitle : option string;
  ensureBody : string
}.

(** Modelled from the spec: [EnsureIssueResult] of [platform], which is
    not among the sources; the result is ['updated'] or ['created'], and
    [null] is [None] of the option. *)
Inductive EnsureIssueResult : Type := updated | created.

(** Modelled from the spec: [Issue] of [platform], which is not among the
    sources; [{ number, body }], holding what the tracker sent. *)
Record Issue : Type := mkFullIssue { number : JsVal; issueBody : JsVal }.

(** A scripted collaborator, for concrete runs: it answers the requests
    it receives with the outcomes of a script, one after the other, and
    throws once the script is used up. *)
Definition Script : Type := list Outcome.

Definition playScript (w : Script) (_ : Request) : Outcome * Script :=
  match w with
  | [] => (Throws (mkError "ECONNREFUSED"), [])
  | o :: rest => (o, rest)
  end.

(** ** The module state and its computations *)

Section Writer.

(** The tracker behind the HTTP client: its state, and how it answers a
    request. *)
Context {World : Type}.
Variable respond : World -> Request -> Outcome * World.

(** [sanitize] of [util/sanitize], which is not among the sources: a pure
    text transform. *)
Variable sanitize : string -> string.

(** The message constant of [constants/error-messages], which is not
    among the sources. *)
Variable SELF_HOSTED_DASHBOARD_URL_UNAVAILABLE : string.

(** The module-level variables. *)
Record State : Type := mkState {
  repository : string;
  http : World;
  issueListCache : list SelfHostIssue;
  renovateConfig : RenovateConfig
}.

(** A computation runs from a state to a returned value or a thrown
    error, the state it leaves, and the events it performed. *)
Definition M (A : Type) : Type := State -> (Error + A) * State * list Event.

Definition ret {A} (a : A) : M A := fun s => (inr a, s, []).

Definition throw {A} (e : Error) : M A := fun s => (inl e, s, []).

Definition bind {A B} (m : M A) (k : A -> M B) : M B := fun s =>
  match m s with
  | (inr a, s1, evs1) =>
      match k a s1 with (r, s2, evs2) => (r, s2, (evs1 ++ evs2)%list) end
  | (inl e, s1, evs1) => (inl e, s1, evs1)
  end.

(** [try { m } catch (err) { handler err }]. *)
Definition tryCatch {A} (m : M A) (handler : Error -> M A) : M A := fun s =>
  match m s with
  | (inr a, s1, evs1) => (inr a, s1, evs1)
  | (inl e, s1, evs1) =>
      match handler e s1 with (r, s2, evs2) => (r, s2, (evs1 ++ evs2)%list) end
  end.

Definition lift {A} (r : Error + A) : M A :=
  match r with inl e => throw e | inr a => ret a end.

Definition gets {A} (f : State -> A) : M A := fun s => (inr (f s), s, []).

Definition withHttp (s : State) (w : World) : State :=
  mkState (repository s) w (issueListCache s) (renovateConfig s).

Definition withCache (s : State) (l : list SelfHostIssue) : State :=
  mkState (repository s) (http s) l (renovateConfig s).

(** [issueListCache = l]. *)
Definition setCache (l : list SelfHostIssue) : M unit := fun s =>
  (inr tt, withCache s l, []).

(** [await http.xxxJson(url, options)], giving the response body. *)
Definition await (r : Request) : M JsVal := fun s =>
  match respond (http s) r with
  | (Returns b, w) => (inr b, withHttp s w, [Http r (Returns b)])
  | (Throws e, w) => (inl e, withHttp s w, [Http r (Throws e)])
  end.

Definition logger (l : Level) (c : LogContext) (msg : string) : M unit :=
  fun s => (inr tt, s, [Log (mkLog l c msg)]).

Notation "x <- m ;; k" := (bind m (fun x => k))
  (at level 61, m at next level, right associativity).
Notation "m ;;; k" := (bind m (fun _ => k))
  (at level 61, right associativity).

Definition truthy (o : option string) : bool :=
  match o with
  | Some s => negb (String.eqb s EmptyString)
  | None => false
  end.

(** [init]: it assigns [repository], [http] and [renovateConfig]; the
    cache keeps the value it has ([[]] when the module is loaded). *)
Definition init (config : RenovateConfig) (client : World)
    (cache : list SelfHostIssue) : Error + State :=
  if negb (truthy (Config.dependencyDashboardUrl config)) then
    inl (mkError SELF_HOSTED_DASHBOARD_URL_UNAVAILABLE)
  else if negb (truthy (Config.repository config)) then
    inl (mkError "Repository is null")
  else
    inr (mkState
           (match Config.repository config with Some r => r | None => EmptyString end)
           client cache config).

(** The callback of [res.body.map]: [{ iid: i.iid, title: i.title }]. *)
Definition project (i : JsVal) : Error + SelfHostIssue :=
  match getProp i "iid" with
  | inl e => inl e
  | inr a =>
      match getProp i "title" with
      | inl e => inl e
      | inr t => inr (mkIssue a t)
      end
  end.

Fixpoint mapProject (items : list JsVal) : Error + list SelfHostIssue :=
  match items with
  | [] => inr []
  | i :: rest =>
      match project i with
      | inl e => inl e
      | inr x =>
          match mapProject rest with
          | inl e => inl e
          | inr xs => inr (x :: xs)
          end
      end
  end.

Definition dashboardUrl (s : State) : option string :=
  Config.dependencyDashboardUrl (renovateConfig s).

(** The request of [getIssueList], as the state [s] makes it. *)
Definition listRequest (s : State) : Request :=
  GetJson (repository s ++ "/issues") (mkOptions (dashboardUrl s) None None).

(** [getIssueList]: [is.array(res.body)] is the match on [JArr]. *)
Definition getIssueList : M (list SelfHostIssue) :=
  req <- gets listRequest ;;
  res <- await req ;;
  match res with
  | JArr items =>
      l <- lift (mapProject items) ;;
      setCache l ;;;
      gets issueListCache
  | _ =>
      logger Warn (CtxResponseBody res) "Could not retrieve issue list" ;;;
      ret []
  end.

(** [issueList.find((i) => i.title === t)]. *)
Definition findByTitle (t : JsVal) (l : list SelfHostIssue) : option SelfHostIssue :=
  List.find (fun i => strictEq (title i) t) l.

(** The issue [ensureIssue] settles on: the first exact match of [title],
    else the first exact match of [reuseTitle]. *)
Definition lookup (cfg : EnsureIssueConfig) (l : list SelfHostIssue) : option SelfHostIssue :=
  match findByTitle (JStr (ensureTitle cfg)) l with
  | Some i => Some i
  | None => findByTitle (ofOptString (reuseTitle cfg)) l
  end.

Definition titleAndDescription (t d : string) : JsVal :=
  JObj [("title", JStr t); ("description", JStr d)].

(** The three requests of [ensureIssue], for repository [repo] and base
    URL [url]. *)
Definition fetchRequest (repo : string) (url : option string) (issue : SelfHostIssue) : Request :=
  GetJson ("/" ++ repo ++ "/issues/" ++ toString (iid issue)) (mkOptions url None None).

Definition updateRequest (repo : string) (url : option string) (cfg : EnsureIssueConfig)
    (issue : SelfHostIssue) : Request :=
  PutJson (repo ++ "/issues/" ++ toString (iid issue))
    (mkOptions url None
       (Some (titleAndDescription (ensureTitle cfg) (sanitize (ensureBody cfg))))).

Definition createRequest (repo : string) (url : option string) (cfg : EnsureIssueConfig) : Request :=
  PostJson ("/" ++ repo ++ "/issues")
    (mkOptions url None
       (Some (titleAndDescription (ensureTitle cfg) (sanitize (ensureBody cfg))))).

(** [issue.title !== title || existingDescription !== description]. *)
Definition needsUpdate (cfg : EnsureIssueConfig) (issue : SelfHostIssue)
    (existingDescription : JsVal) : bool :=
  negb (strictEq (title issue) (JStr (ensureTitle cfg)))
  || negb (strictEq existingDescription (JStr (sanitize (ensureBody cfg)))).

(** The [try] block of [ensureIssue]. *)
Definition ensureIssueTry (cfg : EnsureIssueConfig) : M (option EnsureIssueResult) :=
  issueList <- getIssueList ;;
  repo <- gets repository ;;
  url <- gets dashboardUrl ;;
  match lookup cfg issueList with
  | Some issue =>
      res <- await (fetchRequest repo url issue) ;;
      existingDescription <- lift (getProp res "description") ;;
      if needsUpdate cfg issue existingDescription then
        logger Debug NoContext "Updating issue" ;;;
        await (updateRequest repo url cfg issue) ;;;
        ret (Some updated)
      else ret None
  | None =>
      await (createRequest repo url cfg) ;;;
      logger Info NoContext "Issue created" ;;;
      ret (Some created)
  end.

(** Its [catch] block, followed by the final [return null]. *)
Definition ensureIssueCatch (err : Error) : M (option EnsureIssueResult) :=
  (if startsWith (message err) "Issues are disabled for this repo"
   then logger Debug NoContext ("Could not create issue: " ++ message err)
   else logger Warn (CtxErr err) "Could not ensure issue") ;;;
  ret None.

Definition ensureIssue (cfg : EnsureIssueConfig) : M (option EnsureIssueResult) :=
  logger Debug NoContext "ensureIssue()" ;;;
  tryCatch (ensureIssueTry cfg) ensureIssueCatch.

(** [issue.title === t], the test of the closing loop. *)
Definition titled (t : string) (issue : SelfHostIssue) : bool :=
  strictEq (title issue) (JStr t).

Definition closeRequest (repo : string) (url : option string) (issue : SelfHostIssue) : Request :=
  PutJson (repo ++ "/issues/" ++ toString (iid issue))
    (mkOptions url None (Some (JObj [("state_event", JStr "close")]))).

(** The body of [for (const issue of issueList)]. *)
Fixpoint closeMatching (t : string) (l : list SelfHostIssue) : M unit :=
  match l with
  | [] => ret tt
  | issue :: rest =>
      (if titled t issue then
         logger Debug (CtxIssue issue) "Closing issue" ;;;
         repo <- gets repository ;;
         url <- gets dashboardUrl ;;
         await (closeRequest repo url issue) ;;;
         ret tt
       else ret tt) ;;;
      closeMatching t rest
  end.

Definition ensureIssueClosing (t : string) : M unit :=
  logger Debug NoContext "ensureIssueClosing()" ;;;
  issueList <- getIssueList ;;
  closeMatching t issueList.

Definition issueRequest (repo : string) (url : option string) (n : JsVal)
    (flag : bool) : Request :=
  GetJson (repo ++ "/issues/" ++ toString n) (mkOptions url (Some flag) None).

(** The [try] block of [getIssue]. *)
Definition getIssueTry (n : JsVal) (flag : bool) : M (option Issue) :=
  repo <- gets repository ;;
  url <- gets dashboardUrl ;;
  res <- await (issueRequest repo url n flag) ;;
  issueBody <- lift (getProp res "description") ;;
  ret (Some (mkFullIssue n issueBody)).

Definition getIssueCatch (n : JsVal) (err : Error) : M (option Issue) :=
  logger Warn (CtxErrNumber err n) "Error getting issue" ;;;
  ret None.

(** [getIssue(number, useCache = true)]: an absent flag is [true]. *)
Definition getIssue (n : JsVal) (flag : option bool) : M (option Issue) :=
  let flag := match flag with Some b => b | None => true end in
  tryCatch (getIssueTry n flag) (getIssueCatch n).

(** The [try] block of [findIssue]. *)
Definition findIssueTry (t : string) : M (option Issue) :=
  issueList <- getIssueList ;;
  match findByTitle (JStr t) issueList with
  | None => ret None
  | Some issue => getIssue (iid issue) None
  end.

Definition findIssueCatch (err : Error) : M (option Issue) :=
  logger Warn NoContext "Error finding issue" ;;;
  ret None.

Definition findIssue (t : string) : M (option Issue) :=
  logger Debug NoContext ("findIssue(" ++ t ++ ")") ;;;
  tryCatch (findIssueTry t) findIssueCatch.

(** The entry the [catch] block of [ensureIssue] logs for [err]. *)
Definition ensureIssueCatchEntry (err : Error) : LogEntry :=
  if startsWith (message err) "Issues are disabled for this repo"
  then mkLog Debug NoContext ("Could not create issue: " ++ message err)
  else mkLog Warn (CtxErr err) "Could not ensure issue".

(** The entry the [catch] block of [getIssue] logs. *)
Definition getIssueCatchEntry (n : JsVal) (err : Error) : LogEntry :=
  mkLog Warn (CtxErrNumber err n) "Error getting issue".

End Writer.

Arguments State World : clear implicits.
Arguments M World A : clear implicits.

(** ** A sample set-up, for concrete runs *)

Definition sampleConfig : RenovateConfig :=
  Config.mkConfig (Some "https://tracker.example/api") (Some "org/repo").

(** The state [init] leaves when the module has just been loaded, with a
    tracker that will answer by [script]. *)
Definition sampleState (script : Script) : State Script :=
  mkState "org/repo" script [] sampleConfig.

(** A tracker's listing of one issue, and its answer to a fetch of one. *)
Definition listed (n : Z) (t : string) : JsVal :=
  JObj [("iid", JNum n); ("title", JStr t); ("state", JStr "opened")].

Definition stored (d : string) : JsVal :=
  JObj [("title", JStr "Dashboard"); ("description", JStr d)].

(** A sanitizer for concrete runs: it redacts nothing. *)
Definition noSecrets (text : string) : string := text.

(** A tracker for concrete runs that answers a [getJson] by its URL, from
    a table of stored bodies (404 for a URL it does not hold), and accepts
    every mutation without changing what it stores. *)
Definition Routes : Type := list (string * JsVal).

Fixpoint route (url : string) (table : Routes) : option JsVal :=
  match table with
  | [] => None
  | (known, held) :: rest =>
      if String.eqb url known then Some held else route url rest
  end.

Definition answerByUrl (table : Routes) (req : Request) : Outcome * Routes :=
  match req with
  | GetJson url _ =>
      match route url table with
      | Some held => (Returns held, table)
      | None => (Throws (mkError "Response code 404 (Not Found)"), table)
      end
  | _ => (Returns JNull, table)
  end.

(** ** Observations on runs *)

(** [null] or [undefined]: the values a property read throws on. *)
Definition nullish (v : JsVal) : bool :=
  match v with JUndefined | JNull => true | _ => false end.

(** [true] for a non-empty string, as JS takes a string for a condition. *)
Definition nonEmpty (o : option string) : Prop :=
  exists text, o = Some text /\ text <> EmptyString.

(** Two states that differ at most in the cached issue list. *)
Definition sameButCache {World : Type} (s s' : State World) : Prop :=
  repository s = repository s' /\
  http s = http s' /\
  renovateConfig s = renovateConfig s'.

(** No request follows a request that threw. *)
Fixpoint stopsAtThrow (evs : list Event) : Prop :=
  match evs with
  | [] => True
  | Http _ (Throws _) :: rest => requests rest = []
  | _ :: rest => stopsAtThrow rest
  end.

(** The body of a close request. *)
Definition closeBody : JsVal := JObj [("state_event", JStr "close")].

(** Two runs with the same outcome and the same events, which leave
    states that differ at most in the cached issue list. *)
Definition sameRun {World A : Type}
    (x y : (Error + A) * State World * list Event) : Prop :=
  fst (fst x) = fst (fst y) /\
  snd x = snd y /\
  sameButCache (snd (fst x)) (snd (fst y)).

(** ** How the computations run *)

Section Properties.

Context {World : Type}.
Variable respond : World -> Request -> Outcome * World.
Variable sanitize : string -> string.

Lemma run_bind {A B} (m : M World A) (k : A -> M World B) s :
  bind m k s =
  match m s with
  | (inr a, s1, evs1) =>
      match k a s1 with (r, s2, evs2) => (r, s2, (evs1 ++ evs2)%list) end
  | (inl e, s1, evs1) => (inl e, s1, evs1)
  end.
Proof. reflexivity. Qed.

Lemma requests_app (a b : list Event) :
  requests (a ++ b) = (requests a ++ requests b)%list.
Proof.
  induction a as [|[r o|e] a IH]; simpl; [reflexivity| |assumption].
  now rewrite IH.
Qed.

Lemma logs_app (a b : list Event) : logs (a ++ b) = (logs a ++ logs b)%list.
Proof.
  induction a as [|[r o|e] a IH]; simpl; [reflexivity|assumption|].
  now rewrite IH.
Qed.

Lemma thrown_app (a b : list Event) :
  thrown (a ++ b) = (thrown a ++ thrown b)%list.
Proof.
  induction a as [|[r [v|e]|e] a IH]; simpl; try assumption; [reflexivity|].
  now rewrite IH.
Qed.

(** [getIssueList], case by case on what the tracker answers. *)
Lemma getIssueList_run s :
  getIssueList respond s =
  match respond (http s) (listRequest s) with
  | (Throws e, w) => (inl e, withHttp s w, [Http (listRequest s) (Throws e)])
  | (Returns (JArr items), w) =>
      match mapProject items with
      | inl e => (inl e, withHttp s w, [Http (listRequest s) (Returns (JArr items))])
      | inr l => (inr l, withCache (withHttp s w) l,
                  [Http (listRequest s) (Returns (JArr items))])
      end
  | (Returns b, w) =>
      (inr [], withHttp s w,
       [Http (listRequest s) (Returns b);
        Log (mkLog Warn (CtxResponseBody b) "Could not retrieve issue list")])
  end.
Proof.
  unfold getIssueList, bind, gets, await.
  destruct (respond (http s) (listRequest s)) as [[b|e] w]; [|reflexivity].
  destruct b; try reflexivity.
  unfold lift. destruct (mapProject items); reflexivity.
Qed.

(** A list fetch that returns leaves the repository and the configuration
    alone, performs the one list request, and no request of it threw. *)
Lemma getIssueList_returns s l s1 evs1 :
  getIssueList respond s = (inr l, s1, evs1) ->
  repository s1 = repository s /\
  renovateConfig s1 = renovateConfig s /\
  requests evs1 = [listRequest s] /\
  thrown evs1 = [].
Proof.
  rewrite getIssueList_run.
  destruct (respond (http s) (listRequest s)) as [[b|e] w]; [|discriminate].
  destruct b; try (intros [= <- <- <-]; repeat split; reflexivity).
  destruct (mapProject items); [discriminate|].
  intros [= <- <- <-]. repeat split; reflexivity.
Qed.

Lemma ensureIssue_run cfg s :
  ensureIssue respond sanitize cfg s =
  let entry := Log (mkLog Debug NoContext "ensureIssue()") in
  match ensureIssueTry respond sanitize cfg s with
  | (inr v, s1, evs) => (inr v, s1, entry :: evs)
  | (inl e, s1, evs) =>
      (inr None, s1, entry :: (evs ++ [Log (ensureIssueCatchEntry e)])%list)
  end.
Proof.
  unfold ensureIssue, bind, tryCatch, logger. cbn beta iota.
  destruct (ensureIssueTry respond sanitize cfg s) as [[[e|v] s1] evs]; [|reflexivity].
  unfold ensureIssueCatch, ensureIssueCatchEntry, bind, logger, ret.
  destruct (startsWith (message e) "Issues are disabled for this repo");
    cbn; rewrite ?app_nil_r; reflexivity.
Qed.

(** The [try] block once the list is fetched and holds no match. *)
Lemma ensureIssueTry_absent cfg s l s1 evs1 :
  getIssueList respond s = (inr l, s1, evs1) ->
  lookup cfg l = None ->
  ensureIssueTry respond sanitize cfg s =
  let post := createRequest sanitize (repository s1) (dashboardUrl s1) cfg in
  match respond (http s1) post with
  | (Throws e, w) => (inl e, withHttp s1 w, (evs1 ++ [Http post (Throws e)])%list)
  | (Returns b, w) =>
      (inr (Some created), withHttp s1 w,
       (evs1 ++ [Http post (Returns b);
                 Log (mkLog Info NoContext "Issue created")])%list)
  end.
Proof.
  intros Hlist Hlook. unfold ensureIssueTry.
  rewrite run_bind, Hlist. unfold bind, gets. cbn beta iota. rewrite Hlook.
  unfold await, logger, ret. cbn beta iota.
  destruct (respond (http s1) _) as [[b|e] w]; reflexivity.
Qed.

(** The [try] block once the list is fetched and [issue] is the match. *)
Lemma ensureIssueTry_found cfg s l s1 evs1 issue :
  getIssueList respond s = (inr l, s1, evs1) ->
  lookup cfg l = Some issue ->
  ensureIssueTry respond sanitize cfg s =
  let fetch := fetchRequest (repository s1) (dashboardUrl s1) issue in
  let put := updateRequest sanitize (repository s1) (dashboardUrl s1) cfg issue in
  match respond (http s1) fetch with
  | (Throws e, w) => (inl e, withHttp s1 w, (evs1 ++ [Http fetch (Throws e)])%list)
  | (Returns res, w) =>
      match getProp res "description" with
      | inl e => (inl e, withHttp s1 w, (evs1 ++ [Http fetch (Returns res)])%list)
      | inr d =>
          if needsUpdate sanitize cfg issue d then
            match respond w put with
            | (Throws e, w') =>
                (inl e, withHttp s1 w',
                 (evs1 ++ [Http fetch (Returns res);
                           Log (mkLog Debug NoContext "Updating issue");
                           Http put (Throws e)])%list)
            | (Returns b, w') =>
                (inr (Some updated), withHttp s1 w',
                 (evs1 ++ [Http fetch (Returns res);
                           Log (mkLog Debug NoContext "Updating issue");
                           Http put (Returns b)])%list)
            end
          else (inr None, withHttp s1 w, (evs1 ++ [Http fetch (Returns res)])%list)
      end
  end.
Proof.
  intros Hlist Hlook. unfold ensureIssueTry.
  rewrite run_bind, Hlist. unfold bind, gets. cbn beta iota. rewrite Hlook.
  unfold await at 1. cbn beta iota.
  destruct (respond (http s1) _) as [[res|e] w]; [|reflexivity].
  unfold lift. destruct (getProp res "description") as [e|d]; [reflexivity|].
  unfold ret at 1. cbn beta iota.
  destruct (needsUpdate sanitize cfg issue d); [|reflexivity].
  unfold logger, await, ret. cbn.
  destruct (respond w _) as [[b|e] w']; reflexivity.
Qed.

(** One turn of the closing loop. *)
Lemma closeMatching_step t issue rest s :
  closeMatching respond t (issue :: rest) s =
  if titled t issue then
    let put := closeRequest (repository s) (dashboardUrl s) issue in
    let entry := Log (mkLog Debug (CtxIssue issue) "Closing issue") in
    match respond (http s) put with
    | (Throws e, w) => (inl e, withHttp s w, [entry; Http put (Throws e)])
    | (Returns b, w) =>
        match closeMatching respond t rest (withHttp s w) with
        | (r, s2, evs2) => (r, s2, entry :: Http put (Returns b) :: evs2)
        end
    end
  else closeMatching respond t rest s.
Proof.
  cbn [closeMatching]. rewrite run_bind.
  destruct (titled t issue).
  - unfold bind at 1 2 3 4, logger, gets, await, ret. cbn beta iota.
    destruct (respond (http s) _) as [[b|e] w]; [|reflexivity].
    cbn. now destruct (closeMatching respond t rest _) as [[r s2] evs2].
  - unfold ret. cbn. now destruct (closeMatching respond t rest s) as [[r s2] evs2].
Qed.

(** What the closing loop over [l] does: its requests are the close
    requests of the matching issues, in list order, up to the first that
    throws; it returns when none throws, and otherwise the error thrown is
    its outcome. *)
Lemma closeMatching_spec t l : forall s r s' evs,
  closeMatching respond t l s = (r, s', evs) ->
  let expected := map (closeRequest (repository s) (dashboardUrl s)) (filter (titled t) l) in
  (exists rest, expected = (requests evs ++ rest)%list /\ (r = inr tt -> rest = [])) /\
  (forall e, In e (thrown evs) -> r = inl e) /\
  (r = inr tt -> thrown evs = []) /\
  (forall e, r = inl e -> In e (thrown evs)).
Proof.
  induction l as [|issue rest IH]; intros s r s' evs.
  - intros [= <- <- <-]. cbn. repeat split; try easy. now exists [].
  - rewrite closeMatching_step. cbn [filter map].
    destruct (titled t issue); [|apply IH].
    cbn zeta. destruct (respond (http s) _) as [[b|e] w].
    + destruct (closeMatching respond t rest (withHttp s w)) as [[r2 s2] evs2] eqn:Hrest.
      intros [= <- <- <-]. apply IH in Hrest. cbn in Hrest.
      destruct Hrest as [[more [Hreq Hdone]] [Hthrown [Hnone Herr]]].
      cbn. repeat split; try assumption.
      exists more. split; [f_equal; exact Hreq | assumption].
    + intros [= <- <- <-]. cbn. repeat split; try easy.
      * eexists. split; [reflexivity | discriminate].
      * intros e' [<-|[]]. reflexivity.
      * intros e' [= ->]. now left.
Qed.

Lemma ensureIssueClosing_run t s :
  ensureIssueClosing respond t s =
  let entry := Log (mkLog Debug NoContext "ensureIssueClosing()") in
  match getIssueList respond s with
  | (inl e, s1, evs1) => (inl e, s1, entry :: evs1)
  | (inr l, s1, evs1) =>
      match closeMatching respond t l s1 with
      | (r, s2, evs2) => (r, s2, entry :: (evs1 ++ evs2)%list)
      end
  end.
Proof.
  unfold ensureIssueClosing, bind, logger. cbn beta iota.
  destruct (getIssueList respond s) as [[[e|l] s1] evs1]; [reflexivity|].
  now destruct (closeMatching respond t l s1) as [[r s2] evs2].
Qed.

Lemma getIssue_run n flag s :
  getIssue respond n flag s =
  let b := match flag with Some b => b | None => true end in
  let get := issueRequest (repository s) (dashboardUrl s) n b in
  match respond (http s) get with
  | (Throws e, w) =>
      (inr None, withHttp s w, [Http get (Throws e); Log (getIssueCatchEntry n e)])
  | (Returns res, w) =>
      match getProp res "description" with
      | inl e =>
          (inr None, withHttp s w, [Http get (Returns res); Log (getIssueCatchEntry n e)])
      | inr d =>
          (inr (Some (mkFullIssue n d)), withHttp s w, [Http get (Returns res)])
      end
  end.
Proof.
  unfold getIssue, tryCatch, getIssueTry, bind, gets, await. cbn beta iota zeta.
  destruct (respond (http s) _) as [[res|e] w]; [|reflexivity].
  unfold lift. destruct (getProp res "description") as [e|d]; reflexivity.
Qed.

Lemma findIssue_run t s :
  findIssue respond t s =
  let entry := Log (mkLog Debug NoContext ("findIssue(" ++ t ++ ")")) in
  match getIssueList respond s with
  | (inl e, s1, evs1) =>
      (inr None, s1,
       entry :: (evs1 ++ [Log (mkLog Warn NoContext "Error finding issue")])%list)
  | (inr l, s1, evs1) =>
      match findByTitle (JStr t) l with
      | None => (inr None, s1, entry :: evs1)
      | Some issue =>
          match getIssue respond (iid issue) None s1 with
          | (r, s2, evs2) => (r, s2, entry :: (evs1 ++ evs2)%list)
          end
      end
  end.
Proof.
  unfold findIssue, tryCatch, findIssueTry, bind, logger. cbn beta iota.
  destruct (getIssueList respond s) as [[[e|l] s1] evs1].
  - cbn. rewrite ?app_nil_r. reflexivity.
  - destruct (findByTitle (JStr t) l) as [issue|].
    + rewrite getIssue_run. cbn zeta.
      destruct (respond (http s1) _) as [[res|e] w]; [|reflexivity].
      destruct (getProp res "description"); reflexivity.
    + cbn. rewrite ?app_nil_r. reflexivity.
Qed.

(** ** Where a run stops *)

Lemma stopsAtThrow_quiet a b :
  thrown a = [] -> stopsAtThrow b -> stopsAtThrow (a ++ b).
Proof.
  induction a as [|[req [v|e]|entry] a IH]; cbn; intros Hq Hb;
    try discriminate; auto.
Qed.

Lemma stopsAtThrow_silent a b :
  stopsAtThrow a -> requests b = [] -> stopsAtThrow (a ++ b).
Proof.
  induction a as [|[req [v|e]|entry] a IH]; cbn; intros Ha Hb; auto.
  - induction b as [|[req [v|e]|entry] b IHb]; cbn in *;
      try discriminate; auto.
  - now rewrite requests_app, Ha, Hb.
Qed.

(** What the closing loop keeps, and what it sends: close requests of
    issues of the list that have the title, and nothing else. *)
Lemma closeMatching_any t l : forall s r s' evs,
  closeMatching respond t l s = (r, s', evs) ->
  repository s' = repository s /\
  renovateConfig s' = renovateConfig s /\
  issueListCache s' = issueListCache s /\
  stopsAtThrow evs /\
  Forall (fun req => exists issue,
            In issue l /\ titled t issue = true /\
            req = closeRequest (repository s) (dashboardUrl s) issue)
         (requests evs).
Proof.
  induction l as [|issue rest IH]; intros s r s' evs.
  - intros [= <- <- <-]. cbn. repeat split. constructor.
  - rewrite closeMatching_step. destruct (titled t issue) eqn:Ht.
    + cbn zeta. destruct (respond (http s) _) as [[b|e] w].
      * destruct (closeMatching respond t rest (withHttp s w)) as [[r2 s2] evs2] eqn:Hrest.
        intros [= <- <- <-]. apply IH in Hrest.
        destruct Hrest as [Hrepo [Hcfg [Hcache [Hstop Hall]]]]. cbn in *.
        repeat split; try assumption. constructor.
        -- exists issue. repeat split; [now left | assumption].
        -- eapply Forall_impl; [|exact Hall].
           intros req [i [Hin [Hi Hreq]]]. exists i. repeat split; [now right|assumption|assumption].
      * intros [= <- <- <-]. cbn. repeat split. constructor; [|constructor].
        exists issue. repeat split; [now left | assumption].
    + intros Hrun. apply IH in Hrun.
      destruct Hrun as [Hrepo [Hcfg [Hcache [Hstop Hall]]]].
      repeat split; try assumption.
      eapply Forall_impl; [|exact Hall].
      intros req [i [Hin [Hi Hreq]]]. exists i. repeat split; [now right|assumption|assumption].
Qed.

(** ** Looking an issue up by its title *)

Lemma findByTitle_none t l :
  (forall i, In i l -> strictEq (title i) t = false) -> findByTitle t l = None.
Proof.
  induction l as [|x l IH]; intros H; [reflexivity|].
  cbn. rewrite (H x (or_introl eq_refl)). apply IH.
  intros i Hi. apply H. now right.
Qed.

Lemma findByTitle_some t l i :
  findByTitle t l = Some i -> In i l /\ strictEq (title i) t = true.
Proof. intros H. exact (find_some _ _ H). Qed.

Lemma findByTitle_exists t l i :
  In i l -> strictEq (title i) t = true -> exists j, findByTitle t l = Some j.
Proof.
  intros Hin Ht. destruct (findByTitle t l) as [j|] eqn:E; [now exists j|].
  pose proof (find_none _ _ E i Hin) as F. cbn in F. congruence.
Qed.

(** The issue found is the first of the list with that title. *)
Lemma findByTitle_first t before i after :
  (forall j, In j before -> strictEq (title j) t = false) ->
  strictEq (title i) t = true ->
  findByTitle t (before ++ i :: after) = Some i.
Proof.
  induction before as [|x before IH]; intros Hb Hi; cbn.
  - now rewrite Hi.
  - rewrite (Hb x (or_introl eq_refl)). apply IH; [|assumption].
    intros j Hj. apply Hb. now right.
Qed.

Lemma lookup_none cfg l :
  (forall i, In i l -> strictEq (title i) (JStr (ensureTitle cfg)) = false) ->
  (forall i, In i l -> strictEq (title i) (ofOptString (reuseTitle cfg)) = false) ->
  lookup cfg l = None.
Proof.
  intros Ht Hr. unfold lookup.
  now rewrite (findByTitle_none _ _ Ht), (findByTitle_none _ _ Hr).
Qed.

(** ** The list fetch *)

Lemma getIssueList_thrown s r s1 evs1 e :
  getIssueList respond s = (r, s1, evs1) -> In e (thrown evs1) -> r = inl e.
Proof.
  rewrite getIssueList_run.
  destruct (respond (http s) (listRequest s)) as [[b|e'] w].
  - destruct b; try (intros [= <- <- <-]; cbn; intros []).
    destruct (mapProject items); intros [= <- <- <-]; cbn; intros [].
  - intros [= <- <- <-]. cbn. intros [<-|[]]. reflexivity.
Qed.

Lemma ensureIssueTry_list_fails cfg s e s1 evs1 :
  getIssueList respond s = (inl e, s1, evs1) ->
  ensureIssueTry respond sanitize cfg s = (inl e, s1, evs1).
Proof. intros H. unfold ensureIssueTry. now rewrite run_bind, H. Qed.

(** C1 (as amended). When the body of the list response is not an array,
    [getIssueList] returns the empty sequence and logs the warning
    [Could not retrieve issue list]; it does not assign the cache, which
    keeps the contents it had before the call. *)
Theorem getIssueList_not_array s b w r s' evs :
  respond (http s) (listRequest s) = (Returns b, w) ->
  isArray b = false ->
  getIssueList respond s = (r, s', evs) ->
  r = inr [] /\
  logs evs = [mkLog Warn (CtxResponseBody b) "Could not retrieve issue list"] /\
  issueListCache s' = issueListCache s.
Proof.
  intros Hresp Harr. rewrite getIssueList_run, Hresp.
  destruct b; try discriminate Harr; intros [= <- <- <-]; repeat split.
Qed.

(** C2 (as amended). When the list just fetched holds no issue titled
    [title] and none titled [reuseTitle], [ensureIssue] sends exactly one
    mutation, the create request with the given title and the sanitized
    body; it returns [created] when that request returns, and null when
    that request throws. *)
Theorem ensureIssue_absent_creates cfg s l s1 evs1 r s' evs :
  getIssueList respond s = (inr l, s1, evs1) ->
  (forall i, In i l -> strictEq (title i) (JStr (ensureTitle cfg)) = false) ->
  (forall i, In i l -> strictEq (title i) (ofOptString (reuseTitle cfg)) = false) ->
  ensureIssue respond sanitize cfg s = (r, s', evs) ->
  let post := createRequest sanitize (repository s) (dashboardUrl s) cfg in
  isPost post = true /\
  body (optionsOf post) =
    Some (JObj [("title", JStr (ensureTitle cfg));
                ("description", JStr (sanitize (ensureBody cfg)))]) /\
  filter isMutation (requests evs) = [post] /\
  (forall b w, respond (http s1) post = (Returns b, w) -> r = inr (Some created)) /\
  (forall e w, respond (http s1) post = (Throws e, w) -> r = inr None).
Proof.
  intros Hlist Ht Hr Hrun post.
  destruct (getIssueList_returns _ _ _ _ Hlist) as [Hrepo [Hcfg [Hreq _]]].
  assert (Hpost : createRequest sanitize (repository s1) (dashboardUrl s1) cfg = post).
  { unfold post, dashboardUrl. now rewrite Hrepo, Hcfg. }
  rewrite ensureIssue_run in Hrun.
  rewrite (ensureIssueTry_absent cfg s l s1 evs1 Hlist (lookup_none cfg l Ht Hr)) in Hrun.
  cbn zeta in Hrun. rewrite Hpost in Hrun.
  split; [reflexivity|]. split; [reflexivity|].
  destruct (respond (http s1) post) as [[b|e] w] eqn:E;
    injection Hrun as <- <- <-; cbn [requests];
    rewrite ?requests_app, Hreq; (split; [reflexivity|]);
    split; intros ? ? [=]; reflexivity.
Qed.

(** A call of [ensureIssue] that returns [created] fetched the list,
    found no issue in it, and sent the create request. *)
Lemma ensureIssue_created_inv cfg s s' evs :
  ensureIssue respond sanitize cfg s = (inr (Some created), s', evs) ->
  requests evs =
    [listRequest s; createRequest sanitize (repository s) (dashboardUrl s) cfg].
Proof.
  rewrite ensureIssue_run.
  destruct (getIssueList respond s) as [[[e|l] s1] evs1] eqn:Hlist.
  - now rewrite (ensureIssueTry_list_fails cfg s e s1 evs1 Hlist).
  - destruct (getIssueList_returns _ _ _ _ Hlist) as [Hrepo [Hcfg [Hreq _]]].
    destruct (lookup cfg l) as [issue|] eqn:Hlook.
    + rewrite (ensureIssueTry_found cfg s l s1 evs1 issue Hlist Hlook). cbn zeta.
      destruct (respond (http s1) _) as [[res|e] w]; [|discriminate].
      destruct (getProp res "description") as [e|d]; [discriminate|].
      destruct (needsUpdate sanitize cfg issue d); [|discriminate].
      destruct (respond w _) as [[b|e] w']; discriminate.
    + rewrite (ensureIssueTry_absent cfg s l s1 evs1 Hlist Hlook). cbn zeta.
      destruct (respond (http s1) _) as [[b|e] w]; [|discriminate].
      intros [= <- <-]. cbn [requests]. rewrite requests_app, Hreq.
      unfold dashboardUrl. now rewrite Hrepo, Hcfg.
Qed.

(** C3 (as amended). When the first issue of the list just fetched whose
    title equals the requested title has, as fetched, a description equal
    to the sanitized requested body, [ensureIssue] sends no mutation (no
    [putJson], no [postJson]) and returns null, whatever the issues
    listed after it.  So when a first call created the issue and the
    tracker then lists it, first under its title, with description
    [sanitize body], the second call with the same title and body adds no
    mutation: the two calls together send the one create request. *)
Theorem ensureIssue_unchanged_is_idempotent cfg s before issue after s1 evs1 res w r s' evs :
  getIssueList respond s = (inr (before ++ issue :: after)%list, s1, evs1) ->
  (forall j, In j before -> strictEq (title j) (JStr (ensureTitle cfg)) = false) ->
  strictEq (title issue) (JStr (ensureTitle cfg)) = true ->
  respond (http s1) (fetchRequest (repository s) (dashboardUrl s) issue) = (Returns res, w) ->
  getProp res "description" = inr (JStr (sanitize (ensureBody cfg))) ->
  ensureIssue respond sanitize cfg s = (r, s', evs) ->
  r = inr None /\
  filter isMutation (requests evs) = [] /\
  (forall s0 evs0,
     ensureIssue respond sanitize cfg s0 = (inr (Some created), s, evs0) ->
     filter isMutation (requests (evs0 ++ evs)) =
       [createRequest sanitize (repository s0) (dashboardUrl s0) cfg]).
Proof.
  intros Hlist Hbefore Htitle Hresp Hdesc Hrun.
  pose proof (findByTitle_first (JStr (ensureTitle cfg)) before issue after
                Hbefore Htitle) as Hfind.
  destruct (getIssueList_returns _ _ _ _ Hlist) as [Hrepo [Hcfg [Hreq _]]].
  assert (Hlook : lookup cfg (before ++ issue :: after) = Some issue)
    by (unfold lookup; now rewrite Hfind).
  assert (Hup : needsUpdate sanitize cfg issue (JStr (sanitize (ensureBody cfg))) = false).
  { unfold needsUpdate. rewrite Htitle. cbn. now rewrite String.eqb_refl. }
  rewrite ensureIssue_run in Hrun.
  rewrite (ensureIssueTry_found cfg s _ s1 evs1 issue Hlist Hlook) in Hrun.
  cbn zeta in Hrun. unfold dashboardUrl in Hrun, Hresp. rewrite Hrepo, Hcfg in Hrun.
  rewrite Hresp, Hdesc, Hup in Hrun. injection Hrun as <- <- <-.
  assert (Hnone : filter isMutation
            (requests (Log (mkLog Debug NoContext "ensureIssue()")
               :: evs1 ++ [Http (fetchRequest (repository s)
                                   (Config.dependencyDashboardUrl (renovateConfig s)) issue)
                             (Returns res)])) = []).
  { cbn [requests]. now rewrite requests_app, Hreq. }
  split; [reflexivity|]. split; [exact Hnone|].
  intros s0 evs0 Hfirst.
  rewrite requests_app, filter_app, Hnone, app_nil_r.
  now rewrite (ensureIssue_created_inv cfg s0 s evs0 Hfirst).
Qed.

(** C4 (as amended). When an issue was found (by [title], else by
    [reuseTitle]), the fetch of that issue returned a body whose
    description could be read, and the issue's title differs from the
    requested one or the fetched description differs from the sanitized
    requested body, [ensureIssue] sends exactly one mutation, the update
    request with the requested title and the sanitized body; it returns
    [updated] when that request returns, and null when that request
    throws.  When the fetch throws, or returns a body that is [null] or
    [undefined], no mutation is sent and the result is null. *)
Theorem ensureIssue_found_updates cfg s l s1 evs1 issue r s' evs :
  getIssueList respond s = (inr l, s1, evs1) ->
  lookup cfg l = Some issue ->
  ensureIssue respond sanitize cfg s = (r, s', evs) ->
  let fetch := fetchRequest (repository s) (dashboardUrl s) issue in
  let put := updateRequest sanitize (repository s) (dashboardUrl s) cfg issue in
  isPut put = true /\
  body (optionsOf put) =
    Some (JObj [("title", JStr (ensureTitle cfg));
                ("description", JStr (sanitize (ensureBody cfg)))]) /\
  (forall res w d,
     respond (http s1) fetch = (Returns res, w) ->
     getProp res "description" = inr d ->
     strictEq (title issue) (JStr (ensureTitle cfg)) = false \/
     strictEq d (JStr (sanitize (ensureBody cfg))) = false ->
     filter isMutation (requests evs) = [put] /\
     (forall b w', respond w put = (Returns b, w') -> r = inr (Some updated)) /\
     (forall e w', respond w put = (Throws e, w') -> r = inr None)) /\
  (forall e w,
     respond (http s1) fetch = (Throws e, w) ->
     filter isMutation (requests evs) = [] /\ r = inr None) /\
  (forall res w,
     respond (http s1) fetch = (Returns res, w) ->
     (res = JNull \/ res = JUndefined) ->
     filter isMutation (requests evs) = [] /\ r = inr None).
Proof.
  intros Hlist Hlook Hrun fetch put.
  destruct (getIssueList_returns _ _ _ _ Hlist) as [Hrepo [Hcfg [Hreq _]]].
  rewrite ensureIssue_run in Hrun.
  rewrite (ensureIssueTry_found cfg s l s1 evs1 issue Hlist Hlook) in Hrun.
  cbn zeta in Hrun. unfold dashboardUrl in Hrun. rewrite Hrepo, Hcfg in Hrun.
  fold (dashboardUrl s) in Hrun. fold fetch in Hrun. fold put in Hrun.
  split; [reflexivity|]. split; [reflexivity|]. split; [|split].
  - intros res w d Hresp Hdesc Hdiff.
    assert (Hup : needsUpdate sanitize cfg issue d = true).
    { unfold needsUpdate. destruct Hdiff as [-> | ->]; cbn; [reflexivity|].
      apply orb_true_r. }
    rewrite Hresp, Hdesc, Hup in Hrun.
    destruct (respond w put) as [[b|e] w'] eqn:E;
      injection Hrun as <- <- <-; cbn [requests];
      rewrite ?requests_app, Hreq; (split; [reflexivity|]);
      split; intros ? ? [=]; reflexivity.
  - intros e w Hresp. rewrite Hresp in Hrun. injection Hrun as <- <- <-.
    cbn [requests]. rewrite !requests_app, Hreq. split; reflexivity.
  - intros res w Hresp Hnull. rewrite Hresp in Hrun.
    destruct Hnull as [-> | ->]; cbn [getProp] in Hrun;
      injection Hrun as <- <- <-; cbn [requests];
      rewrite !requests_app, Hreq; split; reflexivity.
Qed.

(** The run of [ensureIssue] once [issue] is found, case by case on the
    fetch of its description. *)
Lemma ensureIssue_found_requests cfg s l s1 evs1 issue r s' evs :
  getIssueList respond s = (inr l, s1, evs1) ->
  lookup cfg l = Some issue ->
  ensureIssue respond sanitize cfg s = (r, s', evs) ->
  let fetch := fetchRequest (repository s) (dashboardUrl s) issue in
  let put := updateRequest sanitize (repository s) (dashboardUrl s) cfg issue in
  match respond (http s1) fetch with
  | (Throws e, _) => r = inr None /\ requests evs = [listRequest s; fetch]
  | (Returns res, w) =>
      match getProp res "description" with
      | inl _ => r = inr None /\ requests evs = [listRequest s; fetch]
      | inr d =>
          if needsUpdate sanitize cfg issue d
          then requests evs = [listRequest s; fetch; put]
          else r = inr None /\ requests evs = [listRequest s; fetch]
      end
  end.
Proof.
  intros Hlist Hlook Hrun.
  destruct (getIssueList_returns _ _ _ _ Hlist) as [Hrepo [Hcfg [Hreq _]]].
  rewrite ensureIssue_run in Hrun.
  rewrite (ensureIssueTry_found cfg s l s1 evs1 issue Hlist Hlook) in Hrun.
  cbn zeta in *. unfold dashboardUrl in *. rewrite Hrepo, Hcfg in Hrun.
  destruct (respond (http s1) _) as [[res|e] w].
  - destruct (getProp res "description") as [e|d].
    + injection Hrun as <- <- <-. cbn [requests].
      now rewrite !requests_app, Hreq.
    + destruct (needsUpdate sanitize cfg issue d).
      * destruct (respond w _) as [[b|e] w']; injection Hrun as <- <- <-;
          cbn [requests]; now rewrite !requests_app, Hreq.
      * injection Hrun as <- <- <-. cbn [requests].
        now rewrite !requests_app, Hreq.
  - injection Hrun as <- <- <-. cbn [requests].
    now rewrite !requests_app, Hreq.
Qed.

(** C5. When the list just fetched holds no issue titled [title] but one
    titled [reuseTitle], [ensureIssue] takes the found-issue branch for the
    first issue so titled: it fetches that issue, follows with the update
    once the description is fetched (the title differs), and sends no
    create request.  When the list holds an issue titled [title], that
    issue is the one settled on, whatever [reuseTitle] matches. *)
Theorem ensureIssue_reuseTitle_branch cfg s l s1 evs1 r s' evs :
  getIssueList respond s = (inr l, s1, evs1) ->
  ensureIssue respond sanitize cfg s = (r, s', evs) ->
  let fetch := fetchRequest (repository s) (dashboardUrl s) in
  let put := updateRequest sanitize (repository s) (dashboardUrl s) cfg in
  ((forall i, In i l -> strictEq (title i) (JStr (ensureTitle cfg)) = false) ->
   (exists i, In i l /\ strictEq (title i) (ofOptString (reuseTitle cfg)) = true) ->
   exists issue,
     findByTitle (ofOptString (reuseTitle cfg)) l = Some issue /\
     filter isPost (requests evs) = [] /\
     (exists after, requests evs = listRequest s :: fetch issue :: after) /\
     (forall res w d,
        respond (http s1) (fetch issue) = (Returns res, w) ->
        getProp res "description" = inr d ->
        requests evs = [listRequest s; fetch issue; put issue])) /\
  (forall issue,
     findByTitle (JStr (ensureTitle cfg)) l = Some issue ->
     lookup cfg l = Some issue /\
     filter isPost (requests evs) = [] /\
     (exists after, requests evs = listRequest s :: fetch issue :: after)).
Proof.
  intros Hlist Hrun fetch put.
  assert (Hfound : forall issue, lookup cfg l = Some issue ->
            filter isPost (requests evs) = [] /\
            (exists after, requests evs = listRequest s :: fetch issue :: after) /\
            (forall res w d,
               respond (http s1) (fetch issue) = (Returns res, w) ->
               getProp res "description" = inr d ->
               needsUpdate sanitize cfg issue d = true ->
               requests evs = [listRequest s; fetch issue; put issue])).
  { intros issue Hlook.
    pose proof (ensureIssue_found_requests cfg s l s1 evs1 issue r s' evs
                  Hlist Hlook Hrun) as H.
    cbn zeta in H. fold (fetch issue) in H. fold (put issue) in H.
    destruct (respond (http s1) (fetch issue)) as [[res|e] w] eqn:Hresp.
    - destruct (getProp res "description") as [e|d] eqn:Hdesc.
      + destruct H as [_ ->].
        split; [reflexivity|]. split; [now exists []|].
        intros res0 w0 d0 [= <- <-]. congruence.
      + destruct (needsUpdate sanitize cfg issue d) eqn:Hup.
        * rewrite H.
          split; [reflexivity|]. split; [eexists; reflexivity|]. reflexivity.
        * destruct H as [_ ->].
          split; [reflexivity|]. split; [now exists []|].
          intros res0 w0 d0 [= <- <-] Hd0. congruence.
    - destruct H as [_ ->].
      split; [reflexivity|]. split; [now exists []|]. intros ? ? ? [=]. }
  split.
  - intros Habsent [i [Hin Hi]].
    destruct (findByTitle_exists _ _ _ Hin Hi) as [issue Hfind].
    exists issue. split; [assumption|].
    assert (Hlook : lookup cfg l = Some issue).
    { unfold lookup. now rewrite (findByTitle_none _ _ Habsent). }
    destruct (Hfound issue Hlook) as [Hpost [Hreq Hupd]].
    split; [assumption|]. split; [assumption|].
    intros res w d Hresp Hdesc. apply (Hupd res w d Hresp Hdesc).
    unfold needsUpdate.
    now rewrite (Habsent issue (proj1 (findByTitle_some _ _ _ Hfind))).
  - intros issue Hfind.
    assert (Hlook : lookup cfg l = Some issue) by (unfold lookup; now rewrite Hfind).
    destruct (Hfound issue Hlook) as [Hpost [Hreq _]].
    split; [assumption|]. split; assumption.
Qed.

(** C6 (as amended). After the list fetch, [ensureIssueClosing] sends the
    close requests ([putJson] with [state_event: 'close'], addressed to
    the issue's [iid]) of the issues whose title equals the given one, one
    each and in list order, and no other request, until a close request
    throws: a close request that throws is the last request sent, and the
    issues after it receive none.  When no close request throws, every
    issue so titled has received its one close request. *)
Theorem ensureIssueClosing_closes_matches t s l s1 evs1 r s' evs :
  getIssueList respond s = (inr l, s1, evs1) ->
  ensureIssueClosing respond t s = (r, s', evs) ->
  let close := closeRequest (repository s) (dashboardUrl s) in
  exists sent,
    requests evs = listRequest s :: sent /\
    (exists rest, map close (filter (titled t) l) = (sent ++ rest)%list) /\
    (thrown evs = [] -> sent = map close (filter (titled t) l)) /\
    stopsAtThrow evs.
Proof.
  intros Hlist Hrun close.
  destruct (getIssueList_returns _ _ _ _ Hlist) as [Hrepo [Hcfg [Hreq Hthr]]].
  rewrite ensureIssueClosing_run, Hlist in Hrun. cbn zeta in Hrun.
  destruct (closeMatching respond t l s1) as [[r2 s2] evs2] eqn:Hloop.
  injection Hrun as <- <- <-.
  destruct (closeMatching_spec t l s1 r2 s2 evs2 Hloop)
    as [[rest [Hexp Hdone]] [_ [_ Herr]]].
  cbn zeta in Hexp. unfold dashboardUrl in Hexp. rewrite Hrepo, Hcfg in Hexp.
  fold (dashboardUrl s) in Hexp. fold close in Hexp.
  exists (requests evs2). cbn [requests]. rewrite requests_app, Hreq.
  split; [reflexivity|]. split; [now exists rest|]. split.
  - cbn [thrown]. rewrite thrown_app, Hthr. cbn [app]. intros Hnone.
    destruct r2 as [e|[]].
    + specialize (Herr e eq_refl). rewrite Hnone in Herr. destruct Herr.
    + rewrite Hexp, (Hdone eq_refl). now rewrite app_nil_r.
  - cbn [stopsAtThrow]. apply stopsAtThrow_quiet; [exact Hthr|].
    exact (proj1 (proj2 (proj2 (proj2 (closeMatching_any t l s1 r2 s2 evs2 Hloop))))).
Qed.

(** C8. [ensureIssueClosing] has no handler: an error that the list fetch
    or a close request throws is, unchanged, the outcome of the call. *)
Theorem ensureIssueClosing_propagates t s r s' evs e :
  ensureIssueClosing respond t s = (r, s', evs) ->
  In e (thrown evs) ->
  r = inl e.
Proof.
  rewrite ensureIssueClosing_run. cbn zeta.
  destruct (getIssueList respond s) as [[[e1|l] s1] evs1] eqn:Hlist.
  - intros [= <- <- <-]. cbn [thrown]. intros Hin.
    pose proof (getIssueList_thrown _ _ _ _ _ Hlist Hin) as [= ->]. reflexivity.
  - destruct (closeMatching respond t l s1) as [[r2 s2] evs2] eqn:Hloop.
    intros [= <- <- <-]. cbn [thrown]. rewrite thrown_app.
    rewrite (proj2 (proj2 (proj2 (getIssueList_returns _ _ _ _ Hlist)))).
    apply (proj1 (proj2 (closeMatching_spec t l s1 r2 s2 evs2 Hloop))).
Qed.

(** ** The operations that catch *)

(** In the [try] block of [ensureIssue] nothing is caught: an error the
    collaborator throws is the outcome of the block. *)
Lemma ensureIssueTry_thrown cfg s r s' evs e :
  ensureIssueTry respond sanitize cfg s = (r, s', evs) ->
  In e (thrown evs) ->
  r = inl e.
Proof.
  destruct (getIssueList respond s) as [[[e1|l] s1] evs1] eqn:Hlist.
  - rewrite (ensureIssueTry_list_fails cfg s e1 s1 evs1 Hlist).
    intros [= <- <- <-] Hin.
    pose proof (getIssueList_thrown _ _ _ _ _ Hlist Hin) as [= ->]. reflexivity.
  - pose proof (proj2 (proj2 (proj2 (getIssueList_returns _ _ _ _ Hlist)))) as Hthr.
    destruct (lookup cfg l) as [issue|] eqn:Hlook.
    + rewrite (ensureIssueTry_found cfg s l s1 evs1 issue Hlist Hlook). cbn zeta.
      destruct (respond (http s1) _) as [[res|e1] w].
      * destruct (getProp res "description") as [e1|d].
        { intros [= <- <- <-]. rewrite thrown_app, Hthr. cbn. tauto. }
        destruct (needsUpdate sanitize cfg issue d).
        { destruct (respond w _) as [[b|e1] w']; intros [= <- <- <-];
            rewrite thrown_app, Hthr; cbn; [tauto|].
          intros [<-|[]]. reflexivity. }
        intros [= <- <- <-]. rewrite thrown_app, Hthr. cbn. tauto.
      * intros [= <- <- <-]. rewrite thrown_app, Hthr. cbn.
        intros [<-|[]]. reflexivity.
    + rewrite (ensureIssueTry_absent cfg s l s1 evs1 Hlist Hlook). cbn zeta.
      destruct (respond (http s1) _) as [[b|e1] w]; intros [= <- <- <-];
        rewrite thrown_app, Hthr; cbn; [tauto|].
      intros [<-|[]]. reflexivity.
Qed.

Lemma getIssueTry_run n b s :
  getIssueTry respond n b s =
  let get := issueRequest (repository s) (dashboardUrl s) n b in
  match respond (http s) get with
  | (Throws e, w) => (inl e, withHttp s w, [Http get (Throws e)])
  | (Returns res, w) =>
      match getProp res "description" with
      | inl e => (inl e, withHttp s w, [Http get (Returns res)])
      | inr d => (inr (Some (mkFullIssue n d)), withHttp s w, [Http get (Returns res)])
      end
  end.
Proof.
  unfold getIssueTry, bind, gets, await. cbn beta iota zeta.
  destruct (respond (http s) _) as [[res|e] w]; [|reflexivity].
  unfold lift. destruct (getProp res "description") as [e|d]; reflexivity.
Qed.

Lemma findIssueTry_fails t s e s1 evs1 :
  findIssueTry respond t s = (inl e, s1, evs1) ->
  getIssueList respond s = (inl e, s1, evs1).
Proof.
  unfold findIssueTry. rewrite run_bind.
  destruct (getIssueList respond s) as [[[e1|l] s2] evs2];
    [intros [= -> -> ->]; reflexivity|].
  destruct (findByTitle (JStr t) l) as [issue|]; [|discriminate].
  rewrite getIssue_run. cbn zeta.
  destruct (respond (http s2) _) as [[res|e2] w]; [|discriminate].
  destruct (getProp res "description"); discriminate.
Qed.

(** C7. Whatever the arguments, the state and the collaborator,
    [ensureIssue], [getIssue] and [findIssue] return and never end in a
    thrown error; whenever the collaborator threw, or the [try] block of
    the operation ended in an error of any origin, the value returned is
    null and the log has the entry of the [catch] block. *)
Theorem read_paths_never_throw cfg n flag t s :
  (exists v s' evs,
     ensureIssue respond sanitize cfg s = (inr v, s', evs) /\
     (forall e,
        In e (thrown evs) \/
        (exists s1 evs1, ensureIssueTry respond sanitize cfg s = (inl e, s1, evs1)) ->
        v = None /\ In (ensureIssueCatchEntry e) (logs evs))) /\
  (exists v s' evs,
     getIssue respond n flag s = (inr v, s', evs) /\
     (forall e,
        In e (thrown evs) \/
        (exists s1 evs1,
           getIssueTry respond n (match flag with Some b => b | None => true end) s
           = (inl e, s1, evs1)) ->
        v = None /\ In (getIssueCatchEntry n e) (logs evs))) /\
  (exists v s' evs,
     findIssue respond t s = (inr v, s', evs) /\
     (forall e,
        In e (thrown evs) \/
        (exists s1 evs1, findIssueTry respond t s = (inl e, s1, evs1)) ->
        v = None /\
        (In (mkLog Warn NoContext "Error finding issue") (logs evs) \/
         exists m, In (getIssueCatchEntry m e) (logs evs)))).
Proof.
  split; [|split].
  - rewrite ensureIssue_run. cbn zeta.
    destruct (ensureIssueTry respond sanitize cfg s) as [[[e1|v] s1] evs] eqn:Htry.
    + do 3 eexists. split; [reflexivity|].
      intros e He. assert (e1 = e) as ->.
      { destruct He as [Hin | [s2 [evs2 [= -> _ _]]]]; [|reflexivity].
        cbn [thrown] in Hin. rewrite thrown_app in Hin. cbn in Hin.
        rewrite app_nil_r in Hin.
        pose proof (ensureIssueTry_thrown _ _ _ _ _ _ Htry Hin) as [= ->].
        reflexivity. }
      split; [reflexivity|]. cbn [logs]. rewrite logs_app. cbn.
      right. apply in_or_app. right. now left.
    + do 3 eexists. split; [reflexivity|].
      intros e [Hin | [s2 [evs2 [=]]]]. cbn [thrown] in Hin.
      pose proof (ensureIssueTry_thrown _ _ _ _ _ _ Htry Hin). discriminate.
  - rewrite getIssue_run, getIssueTry_run. cbn zeta.
    destruct (respond (http s) _) as [[res|e1] w].
    + destruct (getProp res "description") as [e1|d].
      * do 3 eexists. split; [reflexivity|].
        intros e [[] | [s2 [evs2 [= ->]]]]. split; [reflexivity|]. now left.
      * do 3 eexists. split; [reflexivity|].
        intros e [[] | [s2 [evs2 [=]]]].
    + do 3 eexists. split; [reflexivity|].
      assert (forall e, e1 = e -> (None : option Issue) = None /\
                In (getIssueCatchEntry n e)
                   (logs [Http (issueRequest (repository s) (dashboardUrl s) n
                                  (match flag with Some b => b | None => true end))
                            (Throws e1);
                          Log (getIssueCatchEntry n e1)])) as Hok.
      { intros e ->. split; [reflexivity|]. now left. }
      intros e [[Hin|[]] | [s2 [evs2 [= Hin]]]]; exact (Hok e Hin).
  - rewrite findIssue_run. cbn zeta.
    destruct (getIssueList respond s) as [[[e1|l] s1] evs1] eqn:Hlist.
    + do 3 eexists. split; [reflexivity|].
      intros e _. split; [reflexivity|]. left.
      cbn [logs]. rewrite logs_app. right. apply in_or_app. right. now left.
    + pose proof (proj2 (proj2 (proj2 (getIssueList_returns _ _ _ _ Hlist)))) as Hthr.
      assert (Hnot : forall e, ~ exists s2 evs2,
                 findIssueTry respond t s = (inl e, s2, evs2)).
      { intros e [s2 [evs2 H]]. apply findIssueTry_fails in H. congruence. }
      destruct (findByTitle (JStr t) l) as [issue|].
      * rewrite getIssue_run. cbn zeta.
        destruct (respond (http s1) _) as [[res|e1] w].
        { destruct (getProp res "description") as [e1|d];
            (do 3 eexists; split; [reflexivity|]);
            (intros e [Hin | Hf]; [|destruct (Hnot e Hf)]);
            cbn [thrown] in Hin; rewrite thrown_app, Hthr in Hin; destruct Hin. }
        do 3 eexists. split; [reflexivity|].
        intros e [Hin | Hf]; [|destruct (Hnot e Hf)].
        cbn [thrown] in Hin. rewrite thrown_app, Hthr in Hin.
        destruct Hin as [<-|[]]. split; [reflexivity|].
        right. exists (iid issue). cbn [logs]. rewrite logs_app.
        right. apply in_or_app. right. now left.
      * do 3 eexists. split; [reflexivity|].
        intros e [Hin | Hf]; [|destruct (Hnot e Hf)].
        cbn [thrown] in Hin. rewrite Hthr in Hin. destruct Hin.
Qed.

(** ** Finding an issue by its title *)

(** C9. With the list just fetched, [findIssue] returns null when no
    issue of the list has the given title; otherwise it returns what
    [getIssue] returns for the [iid] of the first issue so titled:
    [{number: iid, body: description}] with the description fetched, or
    null when that fetch fails. *)
Theorem findIssue_first_match t s l s1 evs1 :
  getIssueList respond s = (inr l, s1, evs1) ->
  ((forall i, In i l -> titled t i = false) ->
   fst (fst (findIssue respond t s)) = inr None) /\
  (forall before issue after,
     l = (before ++ issue :: after)%list ->
     (forall i, In i before -> titled t i = false) ->
     titled t issue = true ->
     let get := issueRequest (repository s) (dashboardUrl s) (iid issue) true in
     fst (fst (findIssue respond t s)) =
       fst (fst (getIssue respond (iid issue) None s1)) /\
     fst (fst (findIssue respond t s)) =
       match respond (http s1) get with
       | (Returns res, _) =>
           match getProp res "description" with
           | inr d => inr (Some (mkFullIssue (iid issue) d))
           | inl _ => inr None
           end
       | (Throws _, _) => inr None
       end).
Proof.
  intros Hlist.
  destruct (getIssueList_returns _ _ _ _ Hlist) as [Hrepo [Hcfg _]].
  split.
  - intros Hnone. rewrite findIssue_run, Hlist. cbn zeta.
    now rewrite (findByTitle_none (JStr t) l Hnone).
  - intros before issue after -> Hbefore Hissue get.
    rewrite findIssue_run, Hlist. cbn zeta.
    rewrite (findByTitle_first (JStr t) before issue after Hbefore Hissue).
    rewrite getIssue_run. cbn zeta.
    unfold dashboardUrl. rewrite Hrepo, Hcfg. fold (dashboardUrl s). fold get.
    destruct (respond (http s1) get) as [[res|e] w]; [|now split].
    destruct (getProp res "description"); now split.
Qed.

(** C10. [findIssue] calls [getIssue] with the cache flag left out, which
    is the same as passing [true]: the request that fetches the issue
    carries [useCache: true], and no request of [findIssue] carries
    [useCache: false], whatever the title. *)
Theorem findIssue_fetches_with_cache t s r s' evs :
  findIssue respond t s = (r, s', evs) ->
  (forall req, In req (requests evs) -> useCache (optionsOf req) <> Some false) /\
  (forall l s1 evs1 issue,
     getIssueList respond s = (inr l, s1, evs1) ->
     findByTitle (JStr t) l = Some issue ->
     requests evs =
       [listRequest s;
        issueRequest (repository s) (dashboardUrl s) (iid issue) true] /\
     useCache (optionsOf (issueRequest (repository s) (dashboardUrl s) (iid issue) true))
       = Some true) /\
  (forall m s0, getIssue respond m None s0 = getIssue respond m (Some true) s0).
Proof.
  intros Hrun.
  assert (Hshape : requests evs = [listRequest s] \/
            exists l s1 evs1 issue,
              getIssueList respond s = (inr l, s1, evs1) /\
              findByTitle (JStr t) l = Some issue /\
              requests evs =
                [listRequest s;
                 issueRequest (repository s) (dashboardUrl s) (iid issue) true]).
  { rewrite findIssue_run in Hrun. cbn zeta in Hrun.
    destruct (getIssueList respond s) as [[[e|l] s1] evs1] eqn:Hlist.
    - injection Hrun as <- <- <-. left. cbn [requests]. rewrite requests_app.
      rewrite getIssueList_run in Hlist.
      destruct (respond (http s) (listRequest s)) as [[b|e1] w].
      + destruct b; try discriminate Hlist.
        destruct (mapProject items); [|discriminate Hlist].
        now injection Hlist as <- <- <-.
      + now injection Hlist as <- <- <-.
    - destruct (getIssueList_returns _ _ _ _ Hlist) as [Hrepo [Hcfg [Hreq _]]].
      destruct (findByTitle (JStr t) l) as [issue|] eqn:Hfind.
      + right. exists l, s1, evs1, issue. split; [reflexivity|]. split; [exact Hfind|].
        rewrite getIssue_run in Hrun. cbn zeta in Hrun.
        unfold dashboardUrl in Hrun. rewrite Hrepo, Hcfg in Hrun.
        fold (dashboardUrl s) in Hrun.
        destruct (respond (http s1) _) as [[res|e] w].
        * destruct (getProp res "description"); injection Hrun as <- <- <-;
            cbn [requests]; now rewrite requests_app, Hreq.
        * injection Hrun as <- <- <-. cbn [requests]. now rewrite requests_app, Hreq.
      + left. injection Hrun as <- <- <-. cbn [requests]. exact Hreq. }
  split; [|split].
  - intros req Hin.
    destruct Hshape as [Hone | [l [s1 [evs1 [issue [_ [_ Htwo]]]]]]].
    + rewrite Hone in Hin. destruct Hin as [<-|[]]. discriminate.
    + rewrite Htwo in Hin. destruct Hin as [<-|[<-|[]]]; discriminate.
  - intros l s1 evs1 issue Hlist Hfind. split; [|reflexivity].
    destruct Hshape as [Hone | [l' [s1' [evs1' [issue' [Hlist' [Hfind' Htwo]]]]]]].
    + exfalso. rewrite findIssue_run, Hlist in Hrun. cbn zeta in Hrun.
      rewrite Hfind, getIssue_run in Hrun. cbn zeta in Hrun.
      destruct (getIssueList_returns _ _ _ _ Hlist) as [_ [_ [Hreq _]]].
      destruct (respond (http s1) _) as [[res|e] w].
      * destruct (getProp res "description"); injection Hrun as <- <- <-;
          cbn [requests] in Hone; rewrite requests_app, Hreq in Hone;
          discriminate.
      * injection Hrun as <- <- <-. cbn [requests] in Hone.
        rewrite requests_app, Hreq in Hone. discriminate.
    + rewrite Hlist in Hlist'. injection Hlist' as <- <- <-.
      rewrite Hfind in Hfind'. injection Hfind' as <-. exact Htwo.
  - reflexivity.
Qed.

End Properties.

(** ** Concrete runs *)

(** A malformed list response met with a cache that holds an issue. *)
Lemma getIssueList_not_array_witness :
  let s := mkState "org/repo" [Returns (JStr "Bad Gateway")]
             [mkIssue (JNum 1) (JStr "Dashboard")] sampleConfig in
  let run := getIssueList playScript s in
  fst (fst run) = inr [] /\
  logs (snd run) =
    [mkLog Warn (CtxResponseBody (JStr "Bad Gateway")) "Could not retrieve issue list"] /\
  issueListCache (snd (fst run)) = [mkIssue (JNum 1) (JStr "Dashboard")].
Proof.
  intros s run.
  exact (getIssueList_not_array playScript s (JStr "Bad Gateway") []
           (fst (fst run)) (snd (fst run)) (snd run) eq_refl eq_refl eq_refl).
Defined.

(** The claim C1 as stated fails: a first call fills the cache, a second
    call receives [null] for a body, and the cache still holds the issue
    of the first call. *)
Lemma getIssueList_not_array_counterexample :
  let s0 := sampleState [Returns (JArr [listed 1 "Dashboard"]); Returns JNull] in
  let s1 := snd (fst (getIssueList playScript s0)) in
  let run := getIssueList playScript s1 in
  playScript (http s1) (listRequest s1) = (Returns JNull, []) /\
  isArray JNull = false /\
  fst (fst run) = inr [] /\
  issueListCache (snd (fst run)) = [mkIssue (JNum 1) (JStr "Dashboard")] /\
  issueListCache (snd (fst run)) <> [].
Proof.
  cbv zeta. repeat split. intros H. vm_compute in H. discriminate H.
Qed.

Lemma ensureIssue_absent_creates_witness :
  let cfg := mkEnsure "Dashboard" (Some "Old dashboard") "B" in
  let s := sampleState [Returns (JArr [listed 7 "Other"]); Returns JNull] in
  let run := ensureIssue playScript noSecrets cfg s in
  filter isMutation (requests (snd run)) =
    [createRequest noSecrets "org/repo" (Some "https://tracker.example/api") cfg] /\
  fst (fst run) = inr (Some created).
Proof.
  intros cfg s run.
  assert (Ht : forall i, In i [mkIssue (JNum 7) (JStr "Other")] ->
                 strictEq (title i) (JStr (ensureTitle cfg)) = false)
    by (intros i [<-|[]]; reflexivity).
  assert (Hr : forall i, In i [mkIssue (JNum 7) (JStr "Other")] ->
                 strictEq (title i) (ofOptString (reuseTitle cfg)) = false)
    by (intros i [<-|[]]; reflexivity).
  destruct (ensureIssue_absent_creates playScript noSecrets cfg s
              [mkIssue (JNum 7) (JStr "Other")]
              (snd (fst (getIssueList playScript s))) (snd (getIssueList playScript s))
              (fst (fst run)) (snd (fst run)) (snd run) eq_refl Ht Hr eq_refl)
    as [_ [_ [Hmut [Hok _]]]].
  split; [exact Hmut | exact (Hok JNull [] eq_refl)].
Defined.

(** The claim C2 as stated fails: no issue has the title or the reuse
    title, the tracker refuses the create request, and [ensureIssue]
    returns null, not [created]. *)
Lemma ensureIssue_absent_creates_counterexample :
  let cfg := mkEnsure "Dashboard" (Some "Old dashboard") "B" in
  let s := sampleState [Returns (JArr [listed 7 "Other"]);
                        Throws (mkError "Issues are disabled for this repo")] in
  let run := ensureIssue playScript noSecrets cfg s in
  fst (fst (getIssueList playScript s)) = inr [mkIssue (JNum 7) (JStr "Other")] /\
  (forall i, In i [mkIssue (JNum 7) (JStr "Other")] ->
     strictEq (title i) (JStr "Dashboard") = false) /\
  (forall i, In i [mkIssue (JNum 7) (JStr "Other")] ->
     strictEq (title i) (JStr "Old dashboard") = false) /\
  filter isPost (requests (snd run)) =
    [createRequest noSecrets "org/repo" (Some "https://tracker.example/api") cfg] /\
  fst (fst run) = inr None /\
  fst (fst run) <> inr (Some created).
Proof.
  cbv zeta. split; [reflexivity|].
  split; [intros i [<-|[]]; reflexivity|].
  split; [intros i [<-|[]]; reflexivity|].
  split; [reflexivity|]. split; [reflexivity|].
  intros H. vm_compute in H. discriminate H.
Qed.

(** A first call creates the issue, the tracker then lists it with the
    sanitized body, and the second call changes nothing. *)
Lemma ensureIssue_unchanged_is_idempotent_witness :
  let cfg := mkEnsure "Dashboard" None "B" in
  let s0 := sampleState [Returns (JArr []); Returns JNull;
                         Returns (JArr [listed 7 "Other"; listed 1 "Dashboard"]);
                         Returns (stored "B")] in
  let first := ensureIssue playScript noSecrets cfg s0 in
  let second := ensureIssue playScript noSecrets cfg (snd (fst first)) in
  fst (fst first) = inr (Some created) /\
  fst (fst second) = inr None /\
  filter isMutation (requests (snd second)) = [] /\
  filter isMutation (requests (snd first ++ snd second)) =
    [createRequest noSecrets "org/repo" (Some "https://tracker.example/api") cfg].
Proof.
  intros cfg s0 first second.
  pose (s := snd (fst first)).
  assert (Hbefore : forall j, In j [mkIssue (JNum 7) (JStr "Other")] ->
                      strictEq (title j) (JStr (ensureTitle cfg)) = false)
    by (intros j [<-|[]]; reflexivity).
  destruct (ensureIssue_unchanged_is_idempotent playScript noSecrets cfg s
              [mkIssue (JNum 7) (JStr "Other")] (mkIssue (JNum 1) (JStr "Dashboard")) []
              (snd (fst (getIssueList playScript s))) (snd (getIssueList playScript s))
              (stored "B") []
              (fst (fst second)) (snd (fst second)) (snd second)
              eq_refl Hbefore eq_refl eq_refl eq_refl eq_refl)
    as [Hnull [Hnone Hround]].
  split; [reflexivity|]. split; [exact Hnull|]. split; [exact Hnone|].
  exact (Hround s0 (snd first) eq_refl).
Defined.

(** The claim C3 as stated fails: the list holds two issues titled
    [Dashboard], the tracker stores [old text] for the first and the
    sanitized body for the second, so the list does contain an issue with
    the title and the sanitized body; [ensureIssue] fetches the first,
    sends the update and returns [updated]. *)
Lemma ensureIssue_unchanged_is_idempotent_counterexample :
  let cfg := mkEnsure "Dashboard" None "B" in
  let first := mkIssue (JNum 1) (JStr "Dashboard") in
  let second := mkIssue (JNum 2) (JStr "Dashboard") in
  let tracker : Routes :=
    [("org/repo/issues", JArr [listed 1 "Dashboard"; listed 2 "Dashboard"]);
     ("/org/repo/issues/1", stored "old text");
     ("/org/repo/issues/2", stored "B")] in
  let s := mkState "org/repo" tracker [] sampleConfig in
  let s1 := snd (fst (getIssueList answerByUrl s)) in
  let run := ensureIssue answerByUrl noSecrets cfg s in
  fst (fst (getIssueList answerByUrl s)) = inr [first; second] /\
  In second [first; second] /\
  strictEq (title second) (JStr "Dashboard") = true /\
  fst (answerByUrl (http s1)
         (fetchRequest "org/repo" (Some "https://tracker.example/api") second))
    = Returns (stored "B") /\
  getProp (stored "B") "description" = inr (JStr (noSecrets "B")) /\
  filter isMutation (requests (snd run)) =
    [updateRequest noSecrets "org/repo" (Some "https://tracker.example/api") cfg first] /\
  fst (fst run) = inr (Some updated) /\
  fst (fst run) <> inr None.
Proof.
  cbv zeta. split; [reflexivity|]. split; [right; left; reflexivity|].
  repeat (split; [reflexivity|]).
  intros H. vm_compute in H. discriminate H.
Qed.

Lemma ensureIssue_found_updates_witness :
  let cfg := mkEnsure "Dashboard" (Some "Old dashboard") "B" in
  let issue := mkIssue (JNum 1) (JStr "Dashboard") in
  let old := mkIssue (JNum 4) (JStr "Old dashboard") in
  let s := sampleState [Returns (JArr [listed 1 "Dashboard"]);
                        Returns (stored "stale"); Returns JNull] in
  let run := ensureIssue playScript noSecrets cfg s in
  let down := sampleState [Returns (JArr [listed 4 "Old dashboard"]);
                           Throws (mkError "Response code 502 (Bad Gateway)")] in
  let failed := ensureIssue playScript noSecrets cfg down in
  (filter isMutation (requests (snd run)) =
     [updateRequest noSecrets "org/repo" (Some "https://tracker.example/api") cfg issue] /\
   fst (fst run) = inr (Some updated)) /\
  (filter isMutation (requests (snd failed)) = [] /\ fst (fst failed) = inr None).
Proof.
  intros cfg issue old s run down failed. split.
  - destruct (ensureIssue_found_updates playScript noSecrets cfg s [issue]
                (snd (fst (getIssueList playScript s))) (snd (getIssueList playScript s))
                issue (fst (fst run)) (snd (fst run)) (snd run)
                eq_refl eq_refl eq_refl)
      as [_ [_ [Hupd _]]].
    destruct (Hupd (stored "stale") [Returns JNull] (JStr "stale")
                eq_refl eq_refl (or_intror eq_refl)) as [Hmut [Hok _]].
    split; [exact Hmut | exact (Hok JNull [] eq_refl)].
  - destruct (ensureIssue_found_updates playScript noSecrets cfg down [old]
                (snd (fst (getIssueList playScript down)))
                (snd (getIssueList playScript down))
                old (fst (fst failed)) (snd (fst failed)) (snd failed)
                eq_refl eq_refl eq_refl)
      as [_ [_ [_ [Hthrown _]]]].
    exact (Hthrown (mkError "Response code 502 (Bad Gateway)") [] eq_refl).
Defined.

(** The claim C4 as stated fails, in two ways.  The issue is found, its
    description differs, the update request throws, and [ensureIssue]
    returns null, not [updated].  And an issue found by [reuseTitle], whose
    title therefore differs, receives no update request at all when the
    fetch of its description throws. *)
Lemma ensureIssue_found_updates_counterexample :
  let cfg := mkEnsure "Dashboard" (Some "Old dashboard") "B" in
  let issue := mkIssue (JNum 1) (JStr "Dashboard") in
  let s := sampleState [Returns (JArr [listed 1 "Dashboard"]);
                        Returns (stored "stale");
                        Throws (mkError "Response code 502 (Bad Gateway)")] in
  let s1 := snd (fst (getIssueList playScript s)) in
  let run := ensureIssue playScript noSecrets cfg s in
  let old := mkIssue (JNum 4) (JStr "Old dashboard") in
  let down := sampleState [Returns (JArr [listed 4 "Old dashboard"]);
                           Throws (mkError "Response code 502 (Bad Gateway)")] in
  let failed := ensureIssue playScript noSecrets cfg down in
  (fst (fst (getIssueList playScript s)) = inr [issue] /\
   lookup cfg [issue] = Some issue /\
   fst (playScript (http s1)
          (fetchRequest "org/repo" (Some "https://tracker.example/api") issue))
     = Returns (stored "stale") /\
   getProp (stored "stale") "description" = inr (JStr "stale") /\
   strictEq (JStr "stale") (JStr (noSecrets "B")) = false /\
   filter isPut (requests (snd run)) =
     [updateRequest noSecrets "org/repo" (Some "https://tracker.example/api") cfg issue] /\
   fst (fst run) = inr None /\
   fst (fst run) <> inr (Some updated)) /\
  (fst (fst (getIssueList playScript down)) = inr [old] /\
   lookup cfg [old] = Some old /\
   strictEq (title old) (JStr "Dashboard") = false /\
   filter isPut (requests (snd failed)) = [] /\
   fst (fst failed) = inr None /\
   fst (fst failed) <> inr (Some updated)).
Proof.
  cbv zeta. split.
  - repeat (split; [reflexivity|]).
    intros H. vm_compute in H. discriminate H.
  - repeat (split; [reflexivity|]).
    intros H. vm_compute in H. discriminate H.
Qed.

(** The issue still carries its former title: it is fetched and renamed,
    and nothing is created. *)
Lemma ensureIssue_reuseTitle_branch_witness :
  let cfg := mkEnsure "Dependency Dashboard" (Some "Update Dependencies") "B" in
  let old := mkIssue (JNum 4) (JStr "Update Dependencies") in
  let s := sampleState [Returns (JArr [listed 3 "Other"; listed 4 "Update Dependencies"]);
                        Returns (stored "B"); Returns JNull] in
  let run := ensureIssue playScript noSecrets cfg s in
  let new := mkIssue (JNum 9) (JStr "Dependency Dashboard") in
  let both := sampleState [Returns (JArr [listed 4 "Update Dependencies";
                                          listed 9 "Dependency Dashboard"]);
                           Returns (stored "B")] in
  (filter isPost (requests (snd run)) = [] /\
   requests (snd run) =
     [listRequest s;
      fetchRequest "org/repo" (Some "https://tracker.example/api") old;
      updateRequest noSecrets "org/repo" (Some "https://tracker.example/api") cfg old] /\
   fst (fst run) = inr (Some updated)) /\
  (lookup cfg [old; new] = Some new /\
   exists after,
     requests (snd (ensureIssue playScript noSecrets cfg both)) =
       listRequest both
       :: fetchRequest "org/repo" (Some "https://tracker.example/api") new :: after).
Proof.
  intros cfg old s run new both.
  split; [|
    destruct (ensureIssue_reuseTitle_branch playScript noSecrets cfg both [old; new]
                (snd (fst (getIssueList playScript both)))
                (snd (getIssueList playScript both))
                (fst (fst (ensureIssue playScript noSecrets cfg both)))
                (snd (fst (ensureIssue playScript noSecrets cfg both)))
                (snd (ensureIssue playScript noSecrets cfg both)) eq_refl eq_refl)
      as [_ Hprior];
    destruct (Hprior new eq_refl) as [Hlook [_ Hfetch]];
    split; [exact Hlook | exact Hfetch] ].
  destruct (ensureIssue_reuseTitle_branch playScript noSecrets cfg s
              [mkIssue (JNum 3) (JStr "Other"); old]
              (snd (fst (getIssueList playScript s))) (snd (getIssueList playScript s))
              (fst (fst run)) (snd (fst run)) (snd run) eq_refl eq_refl)
    as [Hreuse _].
  destruct Hreuse as [issue [Hfind [Hpost [_ Hupd]]]].
  - intros i [<-|[<-|[]]]; reflexivity.
  - exists old. split; [right; left|]; reflexivity.
  - injection Hfind as <-.
    split; [exact Hpost|].
    split; [exact (Hupd (stored "B") [Returns JNull] (JStr "B") eq_refl eq_refl)|].
    reflexivity.
Defined.

Lemma ensureIssueClosing_closes_matches_witness :
  let s := sampleState [Returns (JArr [listed 1 "X"; listed 2 "Y"; listed 3 "X"]);
                        Returns JNull; Returns JNull] in
  let close := closeRequest "org/repo" (Some "https://tracker.example/api") in
  let run := ensureIssueClosing playScript "X" s in
  requests (snd run) =
    [listRequest s; close (mkIssue (JNum 1) (JStr "X")); close (mkIssue (JNum 3) (JStr "X"))].
Proof.
  intros s close run.
  destruct (ensureIssueClosing_closes_matches playScript "X" s
              [mkIssue (JNum 1) (JStr "X"); mkIssue (JNum 2) (JStr "Y");
               mkIssue (JNum 3) (JStr "X")]
              (snd (fst (getIssueList playScript s))) (snd (getIssueList playScript s))
              (fst (fst run)) (snd (fst run)) (snd run) eq_refl eq_refl)
    as [sent [Hreq [_ [Hall _]]]].
  rewrite Hreq, (Hall eq_refl). reflexivity.
Defined.

(** The claim C6 as stated fails: two issues have the title, the first
    close request throws, and the second issue receives no request. *)
Lemma ensureIssueClosing_closes_matches_counterexample :
  let first := mkIssue (JNum 1) (JStr "X") in
  let second := mkIssue (JNum 3) (JStr "X") in
  let s := sampleState [Returns (JArr [listed 1 "X"; listed 2 "Y"; listed 3 "X"]);
                        Throws (mkError "Response code 403 (Forbidden)")] in
  let close := closeRequest "org/repo" (Some "https://tracker.example/api") in
  let run := ensureIssueClosing playScript "X" s in
  fst (fst (getIssueList playScript s)) = inr [first; mkIssue (JNum 2) (JStr "Y"); second] /\
  titled "X" second = true /\
  filter isPut (requests (snd run)) = [close first] /\
  ~ In (close second) (requests (snd run)).
Proof.
  cbv zeta. repeat (split; [reflexivity|]).
  intros H. vm_compute in H.
  repeat (destruct H as [H|H]; [discriminate H|]). exact H.
Qed.

Lemma ensureIssueClosing_propagates_witness :
  let refused := mkError "Response code 403 (Forbidden)" in
  let s := sampleState [Returns (JArr [listed 1 "X"; listed 3 "X"]); Throws refused] in
  fst (fst (ensureIssueClosing playScript "X" s)) = inl refused.
Proof.
  intros refused s.
  pose (run := ensureIssueClosing playScript "X" s).
  apply (ensureIssueClosing_propagates playScript "X" s
           (fst (fst run)) (snd (fst run)) (snd run) refused eq_refl).
  vm_compute. left. reflexivity.
Defined.

Lemma findIssue_first_match_witness :
  let s := sampleState [Returns (JArr [listed 1 "A"; listed 2 "Dashboard";
                                       listed 3 "Dashboard"]);
                        Returns (stored "text")] in
  fst (fst (findIssue playScript "Dashboard" s))
    = inr (Some (mkFullIssue (JNum 2) (JStr "text"))) /\
  fst (fst (findIssue playScript "Absent" s)) = inr None.
Proof.
  intros s.
  pose (l := [mkIssue (JNum 1) (JStr "A"); mkIssue (JNum 2) (JStr "Dashboard");
              mkIssue (JNum 3) (JStr "Dashboard")]).
  split.
  - destruct (findIssue_first_match playScript "Dashboard" s l
                (snd (fst (getIssueList playScript s))) (snd (getIssueList playScript s))
                eq_refl) as [_ Hfirst].
    destruct (Hfirst [mkIssue (JNum 1) (JStr "A")] (mkIssue (JNum 2) (JStr "Dashboard"))
                [mkIssue (JNum 3) (JStr "Dashboard")] eq_refl) as [_ Hres].
    + intros i [<-|[]]. reflexivity.
    + reflexivity.
    + exact Hres.
  - destruct (findIssue_first_match playScript "Absent" s l
                (snd (fst (getIssueList playScript s))) (snd (getIssueList playScript s))
                eq_refl) as [Hnone _].
    apply Hnone. intros i [<-|[<-|[<-|[]]]]; reflexivity.
Defined.

Lemma findIssue_fetches_with_cache_witness :
  let s := sampleState [Returns (JArr [listed 2 "Dashboard"]); Returns (stored "text")] in
  let run := findIssue playScript "Dashboard" s in
  requests (snd run) =
    [listRequest s;
     issueRequest "org/repo" (Some "https://tracker.example/api") (JNum 2) true] /\
  (forall req, In req (requests (snd run)) -> useCache (optionsOf req) <> Some false).
Proof.
  intros s run.
  destruct (findIssue_fetches_with_cache playScript "Dashboard" s
              (fst (fst run)) (snd (fst run)) (snd run) eq_refl)
    as [Hnever [Hfetch _]].
  split; [|exact Hnever].
  exact (proj1 (Hfetch [mkIssue (JNum 2) (JStr "Dashboard")]
                  (snd (fst (getIssueList playScript s)))
                  (snd (getIssueList playScript s))
                  (mkIssue (JNum 2) (JStr "Dashboard")) eq_refl eq_refl)).
Defined.

(** The tracker refuses every request: each of the three operations
    returns null. *)
Lemma read_paths_never_throw_witness :
  let refused := mkError "Issues are disabled for this repo" in
  let s := sampleState [Throws refused] in
  fst (fst (ensureIssue playScript noSecrets (mkEnsure "Dashboard" None "B") s)) = inr None /\
  fst (fst (getIssue playScript (JNum 5) None s)) = inr None /\
  fst (fst (findIssue playScript "Dashboard" s)) = inr None.
Proof.
  intros refused s.
  destruct (read_paths_never_throw playScript noSecrets
              (mkEnsure "Dashboard" None "B") (JNum 5) None "Dashboard" s)
    as [[v1 [s1 [evs1 [H1 F1]]]] [[v2 [s2 [evs2 [H2 F2]]]] [v3 [s3 [evs3 [H3 F3]]]]]].
  rewrite H1, H2, H3. cbn [fst].
  vm_compute in H1. injection H1 as <- <- <-.
  vm_compute in H2. injection H2 as <- <- <-.
  vm_compute in H3. injection H3 as <- <- <-.
  repeat split; reflexivity.
Defined.

(** [init] on the sample configuration gives the sample state, and it
    refuses a configuration without a dashboard URL or a repository. *)
Lemma init_sample (unavailable : string) (script : Script) :
  init unavailable sampleConfig script [] = inr (sampleState script).
Proof. reflexivity. Qed.

Lemma init_requires_url_and_repository (unavailable : string) (World : Type)
    (client : World) (config : RenovateConfig) (cache : list SelfHostIssue) :
  (Config.dependencyDashboardUrl config = None ->
   init unavailable config client cache = inl (mkError unavailable)) /\
  (Config.repository config = None ->
   exists e, init unavailable config client cache = inl e).
Proof.
  unfold init. split; intros ->; cbn; [reflexivity|].
  destruct (truthy (Config.dependencyDashboardUrl config)); cbn; eexists; reflexivity.
Qed.

(** ** Further properties of the module *)

Section Coverage.

Context {World : Type}.
Variable respond : World -> Request -> Outcome * World.
Variable sanitize : string -> string.

Lemma truthy_nonEmpty o : truthy o = true <-> nonEmpty o.
Proof.
  unfold truthy, nonEmpty. destruct o as [text|].
  - destruct (String.eqb_spec text EmptyString) as [->|Hne]; cbn; split.
    + discriminate.
    + intros [t [[= <-] Ht]]. now destruct Ht.
    + intros _. now exists text.
    + reflexivity.
  - split; [discriminate|]. now intros [t [[=] _]].
Qed.

(** X1. [init] succeeds exactly when the dashboard URL and the repository
    are both non-empty strings; the state it gives holds that repository,
    the client, the whole configuration, and the cache as it was.  The URL
    is tested first: without it the error is the dashboard-URL message
    whatever the repository is, and with it but without a repository the
    error is [Repository is null]. *)
Theorem init_outcome (unavailable : string) (config : RenovateConfig)
    (client : World) (cache : list SelfHostIssue) :
  (forall st, init unavailable config client cache = inr st ->
     nonEmpty (Config.dependencyDashboardUrl config) /\
     Config.repository config = Some (repository st) /\
     repository st <> EmptyString /\
     http st = client /\ issueListCache st = cache /\ renovateConfig st = config) /\
  (nonEmpty (Config.dependencyDashboardUrl config) ->
   nonEmpty (Config.repository config) ->
   exists st, init unavailable config client cache = inr st) /\
  (~ nonEmpty (Config.dependencyDashboardUrl config) ->
   init unavailable config client cache = inl (mkError unavailable)) /\
  (nonEmpty (Config.dependencyDashboardUrl config) ->
   ~ nonEmpty (Config.repository config) ->
   init unavailable config client cache = inl (mkError "Repository is null")).
Proof.
  unfold init.
  destruct (truthy (Config.dependencyDashboardUrl config)) eqn:Hurl;
    destruct (truthy (Config.repository config)) eqn:Hrepo; cbn [negb].
  - apply truthy_nonEmpty in Hurl. apply truthy_nonEmpty in Hrepo.
    destruct Hrepo as [repo [Hr Hne]]. rewrite Hr.
    split; [|split; [|split]].
    + intros st [= <-]. cbn.
      split; [exact Hurl|]. split; [reflexivity|]. split; [exact Hne|].
      split; [reflexivity|]. split; reflexivity.
    + intros _ _. eexists. reflexivity.
    + intros Hno. now destruct Hno.
    + intros _ Hno. destruct Hno. now exists repo.
  - apply truthy_nonEmpty in Hurl.
    assert (Hno : ~ nonEmpty (Config.repository config)).
    { intros H. apply truthy_nonEmpty in H. congruence. }
    split; [|split; [|split]].
    + discriminate.
    + intros _ H. now destruct Hno.
    + intros H. now destruct H.
    + reflexivity.
  - assert (Hno : ~ nonEmpty (Config.dependencyDashboardUrl config)).
    { intros H. apply truthy_nonEmpty in H. congruence. }
    split; [|split; [|split]].
    + discriminate.
    + intros H. now destruct Hno.
    + reflexivity.
    + intros H. now destruct Hno.
  - assert (Hno : ~ nonEmpty (Config.dependencyDashboardUrl config)).
    { intros H. apply truthy_nonEmpty in H. congruence. }
    split; [|split; [|split]].
    + discriminate.
    + intros H. now destruct Hno.
    + reflexivity.
    + intros H. now destruct Hno.
Qed.

(** ** The projection of the listed issues *)

Lemma project_outcome i :
  (nullish i = true -> exists e, project i = inl e) /\
  (nullish i = false ->
   exists a t, getProp i "iid" = inr a /\ getProp i "title" = inr t /\
               project i = inr (mkIssue a t)).
Proof.
  unfold project. destruct i; cbn; split; try discriminate; intros _;
    try (eexists; reflexivity); do 2 eexists; repeat split.
Qed.

(** X2. The [map] over the list response keeps one entry per element, in
    order, each made of the element's [iid] and [title] and nothing else;
    it throws exactly when some element is [null] or [undefined]. *)
Theorem mapProject_outcome (items : list JsVal) :
  (forall l, mapProject items = inr l ->
     Forall2 (fun i x => getProp i "iid" = inr (iid x) /\
                         getProp i "title" = inr (title x)) items l) /\
  ((exists e, mapProject items = inl e) <-> existsb nullish items = true).
Proof.
  induction items as [|i items [IHok IHerr]].
  - split.
    + intros l [= <-]. constructor.
    + cbn. split; [intros [e [=]] | discriminate].
  - cbn [mapProject existsb].
    destruct (project_outcome i) as [Hnull Hobj].
    destruct (nullish i) eqn:Hi.
    + destruct (Hnull eq_refl) as [e ->]. split; [discriminate|].
      cbn. split; [reflexivity|]. intros _. now exists e.
    + destruct (Hobj eq_refl) as [a [t [Ha [Ht ->]]]]. cbn [orb].
      destruct (mapProject items) as [e|xs].
      * split; [discriminate|]. rewrite <- IHerr.
        split; intros _; now exists e.
      * split.
        -- intros l [= <-]. constructor; [now split|]. now apply IHok.
        -- rewrite <- IHerr. split; intros [e [=]].
Qed.

(** ** The list fetch, in every case *)

(** Whatever the list fetch comes to, it sent the one list request, kept
    the repository and the configuration, and left the tracker in the
    state the request put it in. *)
Lemma getIssueList_any s r s1 evs1 :
  getIssueList respond s = (r, s1, evs1) ->
  requests evs1 = [listRequest s] /\
  repository s1 = repository s /\
  renovateConfig s1 = renovateConfig s /\
  http s1 = snd (respond (http s) (listRequest s)) /\
  stopsAtThrow evs1.
Proof.
  rewrite getIssueList_run.
  destruct (respond (http s) (listRequest s)) as [[b|e] w].
  - destruct b; try (intros [= <- <- <-]; cbn; repeat split).
    destruct (mapProject items); intros [= <- <- <-]; cbn; repeat split.
  - intros [= <- <- <-]. cbn. repeat split.
Qed.

(** X3. [getIssueList] sends exactly one request, the list request, in
    every case.  It assigns the cache only when the body is an array with
    no [null] or [undefined] element: the cache is then the list returned,
    one entry per element.  When the body is not an array it returns the
    empty list, and when the request throws or an element is [null] or
    [undefined] it ends in an error; in these three cases the cache keeps
    its contents. *)
Theorem getIssueList_outcome s r s' evs :
  getIssueList respond s = (r, s', evs) ->
  requests evs = [listRequest s] /\
  match fst (respond (http s) (listRequest s)) with
  | Returns (JArr items) =>
      if existsb nullish items
      then (exists e, r = inl e) /\ issueListCache s' = issueListCache s
      else r = inr (issueListCache s') /\
           length (issueListCache s') = length items
  | Returns _ => r = inr [] /\ issueListCache s' = issueListCache s
  | Throws e => r = inl e /\ issueListCache s' = issueListCache s
  end.
Proof.
  intros Hrun. split; [exact (proj1 (getIssueList_any _ _ _ _ Hrun))|].
  rewrite getIssueList_run in Hrun.
  destruct (respond (http s) (listRequest s)) as [[b|e] w]; cbn [fst].
  - destruct b; try (injection Hrun as <- <- <-; split; reflexivity).
    destruct (mapProject_outcome items) as [Hok Herr].
    destruct (mapProject items) as [e|l].
    + injection Hrun as <- <- <-.
      rewrite (proj1 Herr (ex_intro _ e eq_refl)). split; [now exists e|reflexivity].
    + injection Hrun as <- <- <-.
      destruct (existsb nullish items) eqn:Hnull.
      * destruct (proj2 Herr eq_refl) as [e [=]].
      * cbn. split; [reflexivity|].
        symmetry. exact (Forall2_length (Hok l eq_refl)).
  - injection Hrun as <- <- <-. split; reflexivity.
Qed.

Lemma findIssueTry_list_fails t s e s1 evs1 :
  getIssueList respond s = (inl e, s1, evs1) ->
  findIssue respond t s =
    (inr None, s1,
     Log (mkLog Debug NoContext ("findIssue(" ++ t ++ ")"))
       :: (evs1 ++ [Log (mkLog Warn NoContext "Error finding issue")])%list).
Proof. intros H. now rewrite findIssue_run, H. Qed.

(** A list fetch that ends in an error did not assign the cache. *)
Lemma getIssueList_fails_cache s e s1 evs1 :
  getIssueList respond s = (inl e, s1, evs1) ->
  issueListCache s1 = issueListCache s.
Proof.
  rewrite getIssueList_run.
  destruct (respond (http s) (listRequest s)) as [[b|e1] w].
  - destruct b; try discriminate.
    destruct (mapProject items); [|discriminate]. now intros [= <- <- <-].
  - now intros [= <- <- <-].
Qed.

(** X4. When the list fetch ends in an error (the request threw, or an
    element of the array was [null] or [undefined]), no operation sends
    anything more: the list request is the only request, the cache keeps
    its contents, [ensureIssue] and [findIssue] return null, and
    [ensureIssueClosing] ends in that same error. *)
Theorem list_failure_ends_the_operation cfg t s e s1 evs1 :
  getIssueList respond s = (inl e, s1, evs1) ->
  (exists evs, ensureIssue respond sanitize cfg s = (inr None, s1, evs) /\
               requests evs = [listRequest s]) /\
  (exists evs, findIssue respond t s = (inr None, s1, evs) /\
               requests evs = [listRequest s]) /\
  (exists evs, ensureIssueClosing respond t s = (inl e, s1, evs) /\
               requests evs = [listRequest s]) /\
  issueListCache s1 = issueListCache s.
Proof.
  intros Hlist.
  pose proof (proj1 (getIssueList_any _ _ _ _ Hlist)) as Hreq.
  split; [|split; [|split]].
  - rewrite ensureIssue_run, (ensureIssueTry_list_fails _ _ cfg s e s1 evs1 Hlist).
    eexists. split; [reflexivity|]. cbn [requests].
    rewrite requests_app, Hreq. reflexivity.
  - rewrite (findIssueTry_list_fails t s e s1 evs1 Hlist).
    eexists. split; [reflexivity|]. cbn [requests].
    rewrite requests_app, Hreq. reflexivity.
  - rewrite ensureIssueClosing_run, Hlist.
    eexists. split; [reflexivity|]. exact Hreq.
  - exact (getIssueList_fails_cache _ _ _ _ Hlist).
Qed.

(** X5. When the body of the list response is not an array, the list is
    taken to be empty: [ensureIssue] goes on to send the create request,
    [findIssue] returns null and [ensureIssueClosing] returns, each of the
    two having sent the list request only. *)
Theorem malformed_list_is_an_empty_list cfg t s b w :
  respond (http s) (listRequest s) = (Returns b, w) ->
  isArray b = false ->
  (exists r s' evs,
     ensureIssue respond sanitize cfg s = (r, s', evs) /\
     requests evs =
       [listRequest s; createRequest sanitize (repository s) (dashboardUrl s) cfg]) /\
  (exists s' evs, findIssue respond t s = (inr None, s', evs) /\
                  requests evs = [listRequest s]) /\
  (exists s' evs, ensureIssueClosing respond t s = (inr tt, s', evs) /\
                  requests evs = [listRequest s]).
Proof.
  intros Hresp Harr.
  assert (Hlist : getIssueList respond s =
            (inr [], withHttp s w,
             [Http (listRequest s) (Returns b);
              Log (mkLog Warn (CtxResponseBody b) "Could not retrieve issue list")])).
  { rewrite getIssueList_run, Hresp. destruct b; try reflexivity. discriminate Harr. }
  split; [|split].
  - rewrite ensureIssue_run.
    rewrite (ensureIssueTry_absent _ _ cfg s [] _ _ Hlist eq_refl). cbn zeta.
    destruct (respond (http (withHttp s w)) _) as [[b1|e1] w1]; do 3 eexists;
      (split; [reflexivity|]); reflexivity.
  - rewrite findIssue_run, Hlist. cbn. do 2 eexists. split; reflexivity.
  - rewrite ensureIssueClosing_run, Hlist. cbn. do 2 eexists. split; reflexivity.
Qed.

(** ** What every run keeps *)

(** The runs of [ensureIssue], by the requests they send. *)
Lemma ensureIssue_traces cfg s r s' evs :
  ensureIssue respond sanitize cfg s = (r, s', evs) ->
  let listing := listRequest s in
  let post := createRequest sanitize (repository s) (dashboardUrl s) cfg in
  let fetch := fetchRequest (repository s) (dashboardUrl s) in
  let put := updateRequest sanitize (repository s) (dashboardUrl s) cfg in
  repository s' = repository s /\
  renovateConfig s' = renovateConfig s /\
  stopsAtThrow evs /\
  ((exists e s1 evs1, getIssueList respond s = (inl e, s1, evs1)) /\
   requests evs = [listing] /\ r = inr None
   \/
   (exists l s1 evs1, getIssueList respond s = (inr l, s1, evs1) /\ lookup cfg l = None) /\
   requests evs = [listing; post] /\
   (r = inr (Some created) /\ thrown evs = [] \/
    r = inr None /\ exists e, thrown evs = [e])
   \/
   (exists l s1 evs1 issue,
      getIssueList respond s = (inr l, s1, evs1) /\ lookup cfg l = Some issue /\
      (requests evs = [listing; fetch issue] /\ r = inr None
       \/
       requests evs = [listing; fetch issue; put issue] /\
       (r = inr (Some updated) /\ thrown evs = [] \/
        r = inr None /\ exists e, thrown evs = [e])))).
Proof.
  intros Hrun listing post fetch put. rewrite ensureIssue_run in Hrun. cbn zeta in Hrun.
  destruct (getIssueList respond s) as [[[e|l] s1] evs1] eqn:Hlist.
  - destruct (getIssueList_any _ _ _ _ Hlist) as [Hreq [Hrepo [Hcfg [_ Hstop]]]].
    rewrite (ensureIssueTry_list_fails _ _ cfg s e s1 evs1 Hlist) in Hrun.
    injection Hrun as <- <- <-.
    split; [assumption|]. split; [assumption|].
    split; [cbn [stopsAtThrow]; now apply stopsAtThrow_silent|].
    left. split; [now exists e, s1, evs1|]. cbn [requests].
    rewrite requests_app, Hreq. now split.
  - destruct (getIssueList_returns _ _ _ _ _ Hlist) as [Hrepo [Hcfg [Hreq Hthr]]].
    unfold dashboardUrl in *.
    destruct (lookup cfg l) as [issue|] eqn:Hlook.
    + rewrite (ensureIssueTry_found _ _ cfg s l s1 evs1 issue Hlist Hlook) in Hrun.
      cbn zeta in Hrun. unfold dashboardUrl in Hrun. rewrite Hrepo, Hcfg in Hrun.
      destruct (respond (http s1) _) as [[res|e] w].
      * destruct (getProp res "description") as [e|d].
        { injection Hrun as <- <- <-. cbn [stopsAtThrow requests].
          split; [assumption|]. split; [assumption|].
          split; [apply stopsAtThrow_silent; [now apply stopsAtThrow_quiet|reflexivity]|].
          right. right. exists l, s1, evs1, issue. split; [reflexivity|].
          split; [exact Hlook|]. left.
          rewrite !requests_app, Hreq. now split. }
        destruct (needsUpdate sanitize cfg issue d).
        { destruct (respond w _) as [[b|e] w']; injection Hrun as <- <- <-;
            cbn [stopsAtThrow requests thrown];
            (split; [assumption|]); (split; [assumption|]).
          - split; [now apply stopsAtThrow_quiet|].
            right. right. exists l, s1, evs1, issue. split; [reflexivity|].
            split; [exact Hlook|]. right.
            rewrite !requests_app, thrown_app, Hreq, Hthr. split; [reflexivity|].
            left. now split.
          - split; [apply stopsAtThrow_silent; [now apply stopsAtThrow_quiet|reflexivity]|].
            right. right. exists l, s1, evs1, issue. split; [reflexivity|].
            split; [exact Hlook|]. right.
            rewrite !requests_app, !thrown_app, Hreq, Hthr. split; [reflexivity|].
            right. split; [reflexivity|]. now exists e. }
        injection Hrun as <- <- <-. cbn [stopsAtThrow requests].
        split; [assumption|]. split; [assumption|].
        split; [now apply stopsAtThrow_quiet|].
        right. right. exists l, s1, evs1, issue. split; [reflexivity|].
        split; [exact Hlook|]. left.
        rewrite !requests_app, Hreq. now split.
      * injection Hrun as <- <- <-. cbn [stopsAtThrow requests].
        split; [assumption|]. split; [assumption|].
        split; [apply stopsAtThrow_silent; [now apply stopsAtThrow_quiet|reflexivity]|].
        right. right. exists l, s1, evs1, issue. split; [reflexivity|].
        split; [exact Hlook|]. left.
        rewrite !requests_app, Hreq. now split.
    + rewrite (ensureIssueTry_absent _ _ cfg s l s1 evs1 Hlist Hlook) in Hrun.
      cbn zeta in Hrun. unfold dashboardUrl in Hrun. rewrite Hrepo, Hcfg in Hrun.
      destruct (respond (http s1) _) as [[b|e] w]; injection Hrun as <- <- <-;
        cbn [stopsAtThrow requests thrown];
        (split; [assumption|]); (split; [assumption|]).
      * split; [now apply stopsAtThrow_quiet|].
        right. left. split; [now exists l, s1, evs1|].
        rewrite !requests_app, thrown_app, Hreq, Hthr. split; [reflexivity|].
        left. now split.
      * split; [apply stopsAtThrow_silent; [now apply stopsAtThrow_quiet|reflexivity]|].
        right. left. split; [now exists l, s1, evs1|].
        rewrite !requests_app, !thrown_app, Hreq, Hthr. split; [reflexivity|].
        right. split; [reflexivity|]. now exists e.
Qed.

Lemma getIssue_any n flag s r s' evs :
  getIssue respond n flag s = (r, s', evs) ->
  repository s' = repository s /\
  renovateConfig s' = renovateConfig s /\
  issueListCache s' = issueListCache s /\
  stopsAtThrow evs /\
  requests evs =
    [issueRequest (repository s) (dashboardUrl s) n
       (match flag with Some b => b | None => true end)].
Proof.
  rewrite getIssue_run. cbn zeta.
  destruct (respond (http s) _) as [[res|e] w].
  - destruct (getProp res "description"); intros [= <- <- <-]; cbn; repeat split.
  - intros [= <- <- <-]. cbn. repeat split.
Qed.

Lemma findIssue_traces t s r s' evs :
  findIssue respond t s = (r, s', evs) ->
  repository s' = repository s /\
  renovateConfig s' = renovateConfig s /\
  stopsAtThrow evs /\
  (requests evs = [listRequest s] \/
   exists issue,
     requests evs =
       [listRequest s; issueRequest (repository s) (dashboardUrl s) (iid issue) true]).
Proof.
  rewrite findIssue_run. cbn zeta.
  destruct (getIssueList respond s) as [[[e|l] s1] evs1] eqn:Hlist.
  - destruct (getIssueList_any _ _ _ _ Hlist) as [Hreq [Hrepo [Hcfg [_ Hstop]]]].
    intros [= <- <- <-]. cbn [stopsAtThrow requests].
    split; [assumption|]. split; [assumption|].
    split; [now apply stopsAtThrow_silent|].
    left. now rewrite requests_app, Hreq.
  - destruct (getIssueList_returns _ _ _ _ _ Hlist) as [Hrepo [Hcfg [Hreq Hthr]]].
    destruct (findByTitle (JStr t) l) as [issue|].
    + destruct (getIssue respond (iid issue) None s1) as [[r2 s2] evs2] eqn:Hget.
      destruct (getIssue_any _ _ _ _ _ _ Hget) as [Hrepo2 [Hcfg2 [_ [Hstop2 Hreq2]]]].
      intros [= <- <- <-]. cbn [stopsAtThrow requests].
      split; [congruence|]. split; [congruence|].
      split; [now apply stopsAtThrow_quiet|].
      right. exists issue. rewrite requests_app, Hreq, Hreq2.
      unfold dashboardUrl. now rewrite Hrepo, Hcfg.
    + intros [= <- <- <-]. cbn [stopsAtThrow requests].
      split; [assumption|]. split; [assumption|].
      split; [rewrite <- (app_nil_r evs1); now apply stopsAtThrow_quiet|].
      left. exact Hreq.
Qed.

Lemma ensureIssueClosing_any t s r s' evs :
  ensureIssueClosing respond t s = (r, s', evs) ->
  repository s' = repository s /\
  renovateConfig s' = renovateConfig s /\
  stopsAtThrow evs /\
  exists sent,
    requests evs = listRequest s :: sent /\
    Forall (fun req => exists issue,
              titled t issue = true /\
              req = closeRequest (repository s) (dashboardUrl s) issue) sent.
Proof.
  rewrite ensureIssueClosing_run. cbn zeta.
  destruct (getIssueList respond s) as [[[e|l] s1] evs1] eqn:Hlist.
  - destruct (getIssueList_any _ _ _ _ Hlist) as [Hreq [Hrepo [Hcfg [_ Hstop]]]].
    intros [= <- <- <-]. cbn [stopsAtThrow requests].
    split; [assumption|]. split; [assumption|]. split; [assumption|].
    exists []. split; [assumption|constructor].
  - destruct (getIssueList_returns _ _ _ _ _ Hlist) as [Hrepo [Hcfg [Hreq Hthr]]].
    destruct (closeMatching respond t l s1) as [[r2 s2] evs2] eqn:Hloop.
    destruct (closeMatching_any _ t l s1 r2 s2 evs2 Hloop)
      as [Hrepo2 [Hcfg2 [_ [Hstop2 Hall]]]].
    intros [= <- <- <-]. cbn [stopsAtThrow requests].
    split; [congruence|]. split; [congruence|].
    split; [now apply stopsAtThrow_quiet|].
    exists (requests evs2). rewrite requests_app, Hreq. split; [reflexivity|].
    eapply Forall_impl; [|exact Hall].
    intros req [issue [_ [Hi ->]]]. exists issue. split; [assumption|].
    unfold dashboardUrl. now rewrite Hrepo, Hcfg.
Qed.

(** X6. No operation changes the repository or the configuration that
    [init] stored: after [getIssueList], [ensureIssue],
    [ensureIssueClosing], [getIssue] and [findIssue] both are what they
    were, however the call ended. *)
Theorem operations_keep_configuration cfg n flag t s :
  let kept (s' : State World) :=
    repository s' = repository s /\ renovateConfig s' = renovateConfig s in
  kept (snd (fst (getIssueList respond s))) /\
  kept (snd (fst (ensureIssue respond sanitize cfg s))) /\
  kept (snd (fst (ensureIssueClosing respond t s))) /\
  kept (snd (fst (getIssue respond n flag s))) /\
  kept (snd (fst (findIssue respond t s))).
Proof.
  intros kept. unfold kept. repeat split.
  - destruct (getIssueList respond s) as [[r s'] evs] eqn:H.
    exact (proj1 (proj2 (getIssueList_any _ _ _ _ H))).
  - destruct (getIssueList respond s) as [[r s'] evs] eqn:H.
    exact (proj1 (proj2 (proj2 (getIssueList_any _ _ _ _ H)))).
  - destruct (ensureIssue respond sanitize cfg s) as [[r s'] evs] eqn:H.
    exact (proj1 (ensureIssue_traces _ _ _ _ _ H)).
  - destruct (ensureIssue respond sanitize cfg s) as [[r s'] evs] eqn:H.
    exact (proj1 (proj2 (ensureIssue_traces _ _ _ _ _ H))).
  - destruct (ensureIssueClosing respond t s) as [[r s'] evs] eqn:H.
    exact (proj1 (ensureIssueClosing_any _ _ _ _ _ H)).
  - destruct (ensureIssueClosing respond t s) as [[r s'] evs] eqn:H.
    exact (proj1 (proj2 (ensureIssueClosing_any _ _ _ _ _ H))).
  - destruct (getIssue respond n flag s) as [[r s'] evs] eqn:H.
    exact (proj1 (getIssue_any _ _ _ _ _ _ H)).
  - destruct (getIssue respond n flag s) as [[r s'] evs] eqn:H.
    exact (proj1 (proj2 (getIssue_any _ _ _ _ _ _ H))).
  - destruct (findIssue respond t s) as [[r s'] evs] eqn:H.
    exact (proj1 (findIssue_traces _ _ _ _ _ H)).
  - destruct (findIssue respond t s) as [[r s'] evs] eqn:H.
    exact (proj1 (proj2 (findIssue_traces _ _ _ _ _ H))).
Qed.

(** X7. Every request that any operation sends carries, as [baseUrl], the
    dashboard URL of the stored configuration. *)
Theorem requests_carry_the_dashboard_url cfg n flag t s :
  let addressed (evs : list Event) :=
    Forall (fun req => baseUrl (optionsOf req) = dashboardUrl s) (requests evs) in
  addressed (snd (getIssueList respond s)) /\
  addressed (snd (ensureIssue respond sanitize cfg s)) /\
  addressed (snd (ensureIssueClosing respond t s)) /\
  addressed (snd (getIssue respond n flag s)) /\
  addressed (snd (findIssue respond t s)).
Proof.
  intros addressed. unfold addressed. repeat split.
  - destruct (getIssueList respond s) as [[r s'] evs] eqn:H. cbn [snd].
    rewrite (proj1 (getIssueList_any _ _ _ _ H)). now repeat constructor.
  - destruct (ensureIssue respond sanitize cfg s) as [[r s'] evs] eqn:H. cbn [snd].
    destruct (ensureIssue_traces _ _ _ _ _ H) as [_ [_ [_ Hshape]]]. cbn zeta in Hshape.
    destruct Hshape as [[_ [-> _]] | [[_ [-> _]] | [l [s1 [evs1 [issue [_ [_ Hfound]]]]]]]];
      [now repeat constructor | now repeat constructor |].
    destruct Hfound as [[-> _] | [-> _]]; now repeat constructor.
  - destruct (ensureIssueClosing respond t s) as [[r s'] evs] eqn:H. cbn [snd].
    destruct (ensureIssueClosing_any _ _ _ _ _ H) as [_ [_ [_ [sent [-> Hall]]]]].
    constructor; [reflexivity|].
    eapply Forall_impl; [|exact Hall]. now intros req [issue [_ ->]].
  - destruct (getIssue respond n flag s) as [[r s'] evs] eqn:H. cbn [snd].
    rewrite (proj2 (proj2 (proj2 (proj2 (getIssue_any _ _ _ _ _ _ H))))).
    now repeat constructor.
  - destruct (findIssue respond t s) as [[r s'] evs] eqn:H. cbn [snd].
    destruct (findIssue_traces _ _ _ _ _ H) as [_ [_ [_ [-> | [issue ->]]]]];
      now repeat constructor.
Qed.

(** X8. No operation retries or goes on after a failed request: in every
    run of [getIssueList], [ensureIssue], [ensureIssueClosing], [getIssue]
    and [findIssue], a request that threw is the last request sent. *)
Theorem no_request_follows_a_throw cfg n flag t s :
  stopsAtThrow (snd (getIssueList respond s)) /\
  stopsAtThrow (snd (ensureIssue respond sanitize cfg s)) /\
  stopsAtThrow (snd (ensureIssueClosing respond t s)) /\
  stopsAtThrow (snd (getIssue respond n flag s)) /\
  stopsAtThrow (snd (findIssue respond t s)).
Proof.
  repeat split.
  - destruct (getIssueList respond s) as [[r s'] evs] eqn:H.
    exact (proj2 (proj2 (proj2 (proj2 (getIssueList_any _ _ _ _ H))))).
  - destruct (ensureIssue respond sanitize cfg s) as [[r s'] evs] eqn:H.
    exact (proj1 (proj2 (proj2 (ensureIssue_traces _ _ _ _ _ H)))).
  - destruct (ensureIssueClosing respond t s) as [[r s'] evs] eqn:H.
    exact (proj1 (proj2 (proj2 (ensureIssueClosing_any _ _ _ _ _ H)))).
  - destruct (getIssue respond n flag s) as [[r s'] evs] eqn:H.
    exact (proj1 (proj2 (proj2 (proj2 (getIssue_any _ _ _ _ _ _ H))))).
  - destruct (findIssue respond t s) as [[r s'] evs] eqn:H.
    exact (proj1 (proj2 (proj2 (findIssue_traces _ _ _ _ _ H)))).
Qed.

(** ** What the operations send *)

(** X9. [getIssueList], [getIssue] and [findIssue] only read: none of
    them ever sends a [postJson] or a [putJson].  [getIssueList] and
    [getIssue] send exactly one request, and [findIssue] at most two, the
    list request first. *)
Theorem reading_operations_send_no_mutation n flag t s :
  filter isMutation (requests (snd (getIssueList respond s))) = [] /\
  filter isMutation (requests (snd (getIssue respond n flag s))) = [] /\
  filter isMutation (requests (snd (findIssue respond t s))) = [] /\
  length (requests (snd (getIssueList respond s))) = 1 /\
  length (requests (snd (getIssue respond n flag s))) = 1 /\
  (exists rest, requests (snd (findIssue respond t s)) = listRequest s :: rest /\
                length rest <= 1).
Proof.
  destruct (getIssueList respond s) as [[r1 s1] evs1] eqn:H1.
  destruct (getIssue respond n flag s) as [[r2 s2] evs2] eqn:H2.
  destruct (findIssue respond t s) as [[r3 s3] evs3] eqn:H3.
  cbn [snd].
  rewrite (proj1 (getIssueList_any _ _ _ _ H1)).
  rewrite (proj2 (proj2 (proj2 (proj2 (getIssue_any _ _ _ _ _ _ H2))))).
  destruct (findIssue_traces _ _ _ _ _ H3) as [_ [_ [_ [-> | [issue ->]]]]];
    (split; [reflexivity|]); (split; [reflexivity|]); (split; [reflexivity|]);
    (split; [reflexivity|]); (split; [reflexivity|]);
    eexists; (split; [reflexivity|]); cbn; lia.
Qed.

(** X10. [ensureIssue] sends the list request first, at most three
    requests in all and at most one mutation, never both a create and an
    update.  It returns [created] only when the create request was sent
    and nothing threw, and [updated] only when the update request of the
    issue settled on was sent and nothing threw. *)
Theorem ensureIssue_reports_what_it_did cfg s r s' evs :
  ensureIssue respond sanitize cfg s = (r, s', evs) ->
  (exists rest, requests evs = listRequest s :: rest /\ length rest <= 2) /\
  length (filter isMutation (requests evs)) <= 1 /\
  (filter isPost (requests evs) = [] \/ filter isPut (requests evs) = []) /\
  (r = inr (Some created) ->
   thrown evs = [] /\
   requests evs =
     [listRequest s; createRequest sanitize (repository s) (dashboardUrl s) cfg]) /\
  (r = inr (Some updated) ->
   thrown evs = [] /\
   exists l s1 evs1 issue,
     getIssueList respond s = (inr l, s1, evs1) /\
     lookup cfg l = Some issue /\
     requests evs =
       [listRequest s;
        fetchRequest (repository s) (dashboardUrl s) issue;
        updateRequest sanitize (repository s) (dashboardUrl s) cfg issue]).
Proof.
  intros Hrun.
  destruct (ensureIssue_traces _ _ _ _ _ Hrun) as [_ [_ [_ Hshape]]].
  cbn zeta in Hshape.
  destruct Hshape as [[_ [Hreq Hr]] | [[_ [Hreq Hr]] | [l [s1 [evs1 [issue [Hlist [Hlook Hfound]]]]]]]].
  - rewrite Hreq, Hr. cbn.
    split; [exists []; split; [reflexivity | cbn; lia]|].
    split; [lia|]. split; [now left|]. split; discriminate.
  - rewrite Hreq. cbn.
    split; [eexists; split; [reflexivity | cbn; lia]|].
    split; [lia|]. split; [now right|].
    destruct Hr as [[-> Hthr] | [-> _]]; split; try discriminate.
    intros _. now split.
  - destruct Hfound as [[Hreq Hr] | [Hreq Hr]]; rewrite Hreq; cbn.
    + split; [eexists; split; [reflexivity | cbn; lia]|].
      split; [lia|]. split; [now left|]. rewrite Hr. split; discriminate.
    + split; [eexists; split; [reflexivity | cbn; lia]|].
      split; [lia|]. split; [now left|].
      destruct Hr as [[-> Hthr] | [-> _]]; split; try discriminate.
      intros _. split; [assumption|]. now exists l, s1, evs1, issue.
Qed.

(** X11. [ensureIssueClosing] never creates or edits an issue: after the
    list request, every request it sends is a [putJson] whose body is
    [{state_event: 'close'}], the close request of an issue of the list
    just fetched that has the given title; it sends no [postJson] and no
    other [getJson], and nothing at all after a list fetch that failed. *)
Theorem ensureIssueClosing_only_closes t s :
  exists sent,
    requests (snd (ensureIssueClosing respond t s)) = listRequest s :: sent /\
    filter isPost (requests (snd (ensureIssueClosing respond t s))) = [] /\
    Forall (fun req => isPut req = true /\ body (optionsOf req) = Some closeBody) sent /\
    match fst (fst (getIssueList respond s)) with
    | inl _ => sent = []
    | inr l =>
        Forall (fun req => exists issue,
                  In issue l /\ titled t issue = true /\
                  req = closeRequest (repository s) (dashboardUrl s) issue) sent
    end.
Proof.
  rewrite ensureIssueClosing_run. cbn zeta.
  destruct (getIssueList respond s) as [[[e|l] s1] evs1] eqn:Hlist; cbn [fst snd].
  - exists []. cbn [requests].
    rewrite (proj1 (getIssueList_any _ _ _ _ Hlist)).
    split; [reflexivity|]. split; [reflexivity|]. split; [constructor | reflexivity].
  - destruct (getIssueList_returns _ _ _ _ _ Hlist) as [Hrepo [Hcfg [Hreq _]]].
    destruct (closeMatching respond t l s1) as [[r2 s2] evs2] eqn:Hloop. cbn [snd].
    destruct (closeMatching_any _ t l s1 r2 s2 evs2 Hloop) as [_ [_ [_ [_ Hall]]]].
    unfold dashboardUrl in Hall. rewrite Hrepo, Hcfg in Hall. fold (dashboardUrl s) in Hall.
    exists (requests evs2). cbn [requests]. rewrite requests_app, Hreq.
    split; [reflexivity|]. split; [|split; [|exact Hall]].
    + cbn. clear Hloop. induction Hall as [|req sent [issue [_ [_ ->]]] _ IH];
        [reflexivity|]. cbn. exact IH.
    + eapply Forall_impl; [|exact Hall].
      intros req [issue [_ [_ ->]]]. split; reflexivity.
Qed.

(** ** The cache is written, never read *)

Lemma getIssueList_sameButCache a b :
  sameButCache a b -> sameRun (getIssueList respond a) (getIssueList respond b).
Proof.
  intros [Hrepo [Hhttp Hcfg]]. rewrite !getIssueList_run.
  unfold listRequest, dashboardUrl. rewrite Hrepo, Hhttp, Hcfg.
  destruct (respond (http b) _) as [[body|e] w].
  - destruct body; try (repeat split; cbn; assumption).
    destruct (mapProject items); repeat split; cbn; assumption.
  - repeat split; cbn; assumption.
Qed.

Lemma getIssue_sameButCache n flag a b :
  sameButCache a b -> sameRun (getIssue respond n flag a) (getIssue respond n flag b).
Proof.
  intros [Hrepo [Hhttp Hcfg]]. rewrite !getIssue_run. cbn zeta.
  unfold dashboardUrl. rewrite Hrepo, Hhttp, Hcfg.
  destruct (respond (http b) _) as [[res|e] w].
  - destruct (getProp res "description"); repeat split; cbn; assumption.
  - repeat split; cbn; assumption.
Qed.

Lemma closeMatching_sameButCache t l : forall a b,
  sameButCache a b ->
  sameRun (closeMatching respond t l a) (closeMatching respond t l b).
Proof.
  induction l as [|issue rest IH]; intros a b Hab.
  - repeat split; exact Hab || apply Hab.
  - rewrite !closeMatching_step. destruct (titled t issue); [|now apply IH].
    cbn zeta. destruct Hab as [Hrepo [Hhttp Hcfg]].
    unfold dashboardUrl. rewrite Hrepo, Hhttp, Hcfg.
    destruct (respond (http b) _) as [[v|e] w].
    + assert (Hnext : sameButCache (withHttp a w) (withHttp b w))
        by (repeat split; assumption).
      destruct (IH _ _ Hnext) as [Hr [Hevs Hs]].
      destruct (closeMatching respond t rest (withHttp a w)) as [[ra sa] evsa].
      destruct (closeMatching respond t rest (withHttp b w)) as [[rb sb] evsb].
      cbn in *. subst. split; [reflexivity|]. split; [reflexivity|]. exact Hs.
    + repeat split; cbn; assumption.
Qed.

Lemma ensureIssueTry_sameButCache cfg a b :
  sameButCache a b ->
  sameRun (ensureIssueTry respond sanitize cfg a) (ensureIssueTry respond sanitize cfg b).
Proof.
  intros Hab. destruct (getIssueList_sameButCache a b Hab) as [Hr [Hevs Hs]].
  destruct (getIssueList respond a) as [[[ea|la] sa] evsa] eqn:Ha;
    destruct (getIssueList respond b) as [[[eb|lb] sb] evsb] eqn:Hb;
    cbn in Hr, Hevs, Hs; try discriminate Hr.
  - injection Hr as <-. subst evsb.
    rewrite (ensureIssueTry_list_fails _ _ cfg a _ _ _ Ha).
    rewrite (ensureIssueTry_list_fails _ _ cfg b _ _ _ Hb).
    repeat split; apply Hs.
  - injection Hr as <-. subst evsb. destruct Hs as [Hrepo [Hhttp Hcfg]].
    destruct (lookup cfg la) as [issue|] eqn:Hlook.
    + rewrite (ensureIssueTry_found _ _ cfg a la sa evsa issue Ha Hlook).
      rewrite (ensureIssueTry_found _ _ cfg b la sb evsa issue Hb Hlook).
      cbn zeta. unfold dashboardUrl. rewrite Hrepo, Hhttp, Hcfg.
      destruct (respond (http sb) _) as [[res|e] w].
      * destruct (getProp res "description") as [e|d];
          [repeat split; cbn; assumption|].
        destruct (needsUpdate sanitize cfg issue d);
          [|repeat split; cbn; assumption].
        destruct (respond w _) as [[v|e] w']; repeat split; cbn; assumption.
      * repeat split; cbn; assumption.
    + rewrite (ensureIssueTry_absent _ _ cfg a la sa evsa Ha Hlook).
      rewrite (ensureIssueTry_absent _ _ cfg b la sb evsa Hb Hlook).
      cbn zeta. unfold dashboardUrl. rewrite Hrepo, Hhttp, Hcfg.
      destruct (respond (http sb) _) as [[v|e] w]; repeat split; cbn; assumption.
Qed.

(** X12. The cached issue list is never read to decide anything: started
    from two states that differ only in the cache, each operation returns
    the same value, sends the same requests and logs the same entries,
    and leaves the tracker in the same state. *)
Theorem cache_is_never_read cfg n flag t a b :
  sameButCache a b ->
  sameRun (getIssueList respond a) (getIssueList respond b) /\
  sameRun (ensureIssue respond sanitize cfg a) (ensureIssue respond sanitize cfg b) /\
  sameRun (ensureIssueClosing respond t a) (ensureIssueClosing respond t b) /\
  sameRun (getIssue respond n flag a) (getIssue respond n flag b) /\
  sameRun (findIssue respond t a) (findIssue respond t b).
Proof.
  intros Hab.
  pose proof (getIssueList_sameButCache a b Hab) as Hlist.
  split; [exact Hlist|]. split; [|split; [|split]].
  - rewrite !ensureIssue_run. cbn zeta.
    destruct (ensureIssueTry_sameButCache cfg a b Hab) as [Hr [Hevs Hs]].
    destruct (ensureIssueTry respond sanitize cfg a) as [[[ea|va] sa] evsa];
      destruct (ensureIssueTry respond sanitize cfg b) as [[[eb|vb] sb] evsb];
      cbn in Hr, Hevs, Hs; try discriminate Hr; injection Hr as <-; subst evsb;
      repeat split; apply Hs.
  - rewrite !ensureIssueClosing_run. cbn zeta.
    destruct Hlist as [Hr [Hevs Hs]].
    destruct (getIssueList respond a) as [[[ea|la] sa] evsa];
      destruct (getIssueList respond b) as [[[eb|lb] sb] evsb];
      cbn in Hr, Hevs, Hs; try discriminate Hr; injection Hr as <-; subst evsb.
    + repeat split; apply Hs.
    + destruct (closeMatching_sameButCache t la sa sb Hs) as [Hr2 [Hevs2 Hs2]].
      destruct (closeMatching respond t la sa) as [[ra sa'] evsa'].
      destruct (closeMatching respond t la sb) as [[rb sb'] evsb'].
      cbn in *. subst. split; [reflexivity|]. split; [reflexivity|]. exact Hs2.
  - exact (getIssue_sameButCache n flag a b Hab).
  - rewrite !findIssue_run. cbn zeta.
    destruct Hlist as [Hr [Hevs Hs]].
    destruct (getIssueList respond a) as [[[ea|la] sa] evsa];
      destruct (getIssueList respond b) as [[[eb|lb] sb] evsb];
      cbn in Hr, Hevs, Hs; try discriminate Hr; injection Hr as <-; subst evsb.
    + repeat split; apply Hs.
    + destruct (findByTitle (JStr t) la) as [issue|]; [|repeat split; apply Hs].
      destruct (getIssue_sameButCache (iid issue) None sa sb Hs) as [Hr2 [Hevs2 Hs2]].
      destruct (getIssue respond (iid issue) None sa) as [[ra sa'] evsa'].
      destruct (getIssue respond (iid issue) None sb) as [[rb sb'] evsb'].
      cbn in *. subst. split; [reflexivity|]. split; [reflexivity|]. exact Hs2.
Qed.

(** ** The issue [ensureIssue] settles on *)

Lemma strictEq_string a text : strictEq a (JStr text) = true <-> a = JStr text.
Proof.
  destruct a; cbn; split; try discriminate.
  - intros H. apply String.eqb_eq in H. now subst.
  - intros [= ->]. apply String.eqb_refl.
Qed.

Lemma strictEq_optString a o :
  strictEq a (ofOptString o) = true <-> a = ofOptString o.
Proof.
  destruct o as [text|]; [apply strictEq_string|].
  destruct a; cbn; split; try discriminate; reflexivity.
Qed.

Lemma findByTitle_None_iff t l :
  findByTitle t l = None <-> forall i, In i l -> strictEq (title i) t = false.
Proof.
  split; [|apply findByTitle_none].
  intros H i Hi. exact (find_none _ _ H i Hi).
Qed.

(** X13. The issue that [ensureIssue] settles on is an issue of the list:
    one whose title is the requested title, or, only when no issue of the
    list has that title, one whose title is [reuseTitle].  It settles on
    none exactly when no issue of the list has either title. *)
Theorem lookup_outcome cfg l :
  (forall i, lookup cfg l = Some i ->
     In i l /\
     (title i = JStr (ensureTitle cfg) \/
      (forall j, In j l -> title j <> JStr (ensureTitle cfg)) /\
      title i = ofOptString (reuseTitle cfg))) /\
  (lookup cfg l = None <->
   forall i, In i l ->
     title i <> JStr (ensureTitle cfg) /\ title i <> ofOptString (reuseTitle cfg)).
Proof.
  unfold lookup. split.
  - intros i. destruct (findByTitle (JStr (ensureTitle cfg)) l) as [x|] eqn:Ht.
    + intros [= ->]. destruct (findByTitle_some _ _ _ Ht) as [Hin Hi].
      split; [assumption|]. left. now apply strictEq_string.
    + intros Hr. destruct (findByTitle_some _ _ _ Hr) as [Hin Hi].
      split; [assumption|]. right. split; [|now apply strictEq_optString].
      intros j Hj Heq. apply strictEq_string in Heq.
      pose proof (proj1 (findByTitle_None_iff _ _) Ht j Hj). congruence.
  - destruct (findByTitle (JStr (ensureTitle cfg)) l) as [x|] eqn:Ht.
    + split; [discriminate|]. intros H.
      destruct (findByTitle_some _ _ _ Ht) as [Hin Hi].
      apply strictEq_string in Hi. now destruct (proj1 (H x Hin)).
    + rewrite findByTitle_None_iff. rewrite findByTitle_None_iff in Ht. split.
      * intros Hr i Hi. split; intros Heq.
        -- apply strictEq_string in Heq. specialize (Ht i Hi). congruence.
        -- apply strictEq_optString in Heq. specialize (Hr i Hi). congruence.
      * intros H i Hi. destruct (strictEq (title i) _) eqn:E; [|reflexivity].
        apply strictEq_optString in E. now destruct (proj2 (H i Hi)).
Qed.

(** X14. With [reuseTitle] left out, an entry of the list response that
    has no [title] is taken for the issue to reuse when no issue has the
    requested title: [ensureIssue] fetches that entry and sends no create
    request. *)
Theorem ensureIssue_without_reuseTitle_matches_untitled cfg s l s1 evs1 untitled :
  reuseTitle cfg = None ->
  getIssueList respond s = (inr l, s1, evs1) ->
  (forall j, In j l -> title j <> JStr (ensureTitle cfg)) ->
  In untitled l ->
  title untitled = JUndefined ->
  exists issue rest,
    In issue l /\ title issue = JUndefined /\
    requests (snd (ensureIssue respond sanitize cfg s)) =
      listRequest s :: fetchRequest (repository s) (dashboardUrl s) issue :: rest /\
    filter isPost (requests (snd (ensureIssue respond sanitize cfg s))) = [].
Proof.
  intros Hreuse Hlist Hnone Hin Htitle.
  assert (Ht : findByTitle (JStr (ensureTitle cfg)) l = None).
  { apply findByTitle_none. intros j Hj.
    destruct (strictEq (title j) _) eqn:E; [|reflexivity].
    apply strictEq_string in E. now destruct (Hnone j Hj). }
  destruct (findByTitle_exists JUndefined l untitled Hin) as [issue Hfind].
  { now rewrite Htitle. }
  assert (Hlook : lookup cfg l = Some issue).
  { unfold lookup. now rewrite Ht, Hreuse. }
  destruct (findByTitle_some _ _ _ Hfind) as [Hissue Hundef].
  apply (strictEq_optString _ None) in Hundef.
  destruct (ensureIssue respond sanitize cfg s) as [[r s'] evs] eqn:Hrun. cbn [snd].
  destruct (ensureIssue_traces _ _ _ _ _ Hrun) as [_ [_ [_ Hshape]]].
  cbn zeta in Hshape.
  destruct Hshape as [[[e [s2 [evs2 Hfail]]] _] | [[[l2 [s2 [evs2 [Hl2 Hno]]]] _] | Hfound]].
  - congruence.
  - rewrite Hlist in Hl2. injection Hl2 as <- <- <-. congruence.
  - destruct Hfound as [l2 [s2 [evs2 [issue2 [Hl2 [Hlook2 Hreq]]]]]].
    rewrite Hlist in Hl2. injection Hl2 as <- <- <-.
    rewrite Hlook in Hlook2. injection Hlook2 as <-.
    destruct Hreq as [[-> _] | [-> _]]; do 2 eexists;
      (split; [exact Hissue|]); (split; [exact Hundef|]); split; reflexivity.
Qed.

(** X15. With several issues of the requested title in the list,
    [ensureIssue] touches the first only: after the list request, every
    request it sends is the fetch or the update of that first issue. *)
Theorem ensureIssue_touches_the_first_match_only cfg s before issue after s1 evs1 :
  getIssueList respond s = (inr (before ++ issue :: after)%list, s1, evs1) ->
  (forall j, In j before -> title j <> JStr (ensureTitle cfg)) ->
  title issue = JStr (ensureTitle cfg) ->
  exists rest,
    requests (snd (ensureIssue respond sanitize cfg s)) = listRequest s :: rest /\
    Forall (fun req =>
              req = fetchRequest (repository s) (dashboardUrl s) issue \/
              req = updateRequest sanitize (repository s) (dashboardUrl s) cfg issue)
           rest.
Proof.
  intros Hlist Hbefore Hissue.
  assert (Hlook : lookup cfg (before ++ issue :: after) = Some issue).
  { unfold lookup. rewrite (findByTitle_first (JStr (ensureTitle cfg)) before issue after).
    - reflexivity.
    - intros j Hj. destruct (strictEq (title j) _) eqn:E; [|reflexivity].
      apply strictEq_string in E. now destruct (Hbefore j Hj).
    - now apply strictEq_string. }
  destruct (ensureIssue respond sanitize cfg s) as [[r s'] evs] eqn:Hrun. cbn [snd].
  destruct (ensureIssue_traces _ _ _ _ _ Hrun) as [_ [_ [_ Hshape]]].
  cbn zeta in Hshape.
  destruct Hshape as [[[e [s2 [evs2 Hfail]]] _] | [[[l2 [s2 [evs2 [Hl2 Hno]]]] _] | Hfound]].
  - congruence.
  - rewrite Hlist in Hl2. injection Hl2 as <- <- <-. congruence.
  - destruct Hfound as [l2 [s2 [evs2 [issue2 [Hl2 [Hlook2 Hreq]]]]]].
    rewrite Hlist in Hl2. injection Hl2 as <- <- <-.
    rewrite Hlook in Hlook2. injection Hlook2 as <-.
    destruct Hreq as [[-> _] | [-> _]]; eexists; (split; [reflexivity|]).
    + constructor; [now left | constructor].
    + constructor; [now left|]. constructor; [now right | constructor].
Qed.

(** ** What the fetched issue may lack *)

(** X16. When the body fetched for the issue found is [null] or
    [undefined], reading its [description] throws inside the [try] block:
    [ensureIssue] sends no mutation, returns null, and logs the warning
    [Could not ensure issue]. *)
Theorem ensureIssue_issue_without_body cfg s l s1 evs1 issue res w :
  getIssueList respond s = (inr l, s1, evs1) ->
  lookup cfg l = Some issue ->
  respond (http s1) (fetchRequest (repository s) (dashboardUrl s) issue) = (Returns res, w) ->
  nullish res = true ->
  let run := ensureIssue respond sanitize cfg s in
  fst (fst run) = inr None /\
  requests (snd run) = [listRequest s; fetchRequest (repository s) (dashboardUrl s) issue] /\
  exists e, In (mkLog Warn (CtxErr e) "Could not ensure issue") (logs (snd run)).
Proof.
  intros Hlist Hlook Hresp Hnull run. unfold run.
  destruct (getIssueList_returns _ _ _ _ _ Hlist) as [Hrepo [Hcfg [Hreq _]]].
  rewrite ensureIssue_run.
  rewrite (ensureIssueTry_found _ _ cfg s l s1 evs1 issue Hlist Hlook).
  cbn zeta. unfold dashboardUrl in *. rewrite Hrepo, Hcfg, Hresp.
  destruct res; try discriminate Hnull; cbn [getProp fst snd requests logs];
    rewrite !requests_app, !logs_app, Hreq;
    (split; [reflexivity|]); (split; [reflexivity|]);
    eexists; right; apply in_or_app; right; cbn; left; reflexivity.
Qed.

(** X17. A fetched description that is not a string (the field is absent,
    [null], a number, ...) never equals the sanitized body: [ensureIssue]
    then sends the update. *)
Theorem ensureIssue_updates_when_description_is_no_string cfg s l s1 evs1 issue res w d :
  getIssueList respond s = (inr l, s1, evs1) ->
  lookup cfg l = Some issue ->
  respond (http s1) (fetchRequest (repository s) (dashboardUrl s) issue) = (Returns res, w) ->
  getProp res "description" = inr d ->
  (forall text, d <> JStr text) ->
  requests (snd (ensureIssue respond sanitize cfg s)) =
    [listRequest s;
     fetchRequest (repository s) (dashboardUrl s) issue;
     updateRequest sanitize (repository s) (dashboardUrl s) cfg issue].
Proof.
  intros Hlist Hlook Hresp Hdesc Hnot.
  destruct (getIssueList_returns _ _ _ _ _ Hlist) as [Hrepo [Hcfg [Hreq _]]].
  assert (Hup : needsUpdate sanitize cfg issue d = true).
  { unfold needsUpdate. destruct (strictEq d _) eqn:E.
    - apply strictEq_string in E. now destruct (Hnot _ E).
    - apply orb_true_r. }
  rewrite ensureIssue_run.
  rewrite (ensureIssueTry_found _ _ cfg s l s1 evs1 issue Hlist Hlook).
  cbn zeta. unfold dashboardUrl in *. rewrite Hrepo, Hcfg, Hresp, Hdesc, Hup.
  destruct (respond w _) as [[b|e] w']; cbn [snd requests];
    now rewrite !requests_app, Hreq.
Qed.

(** ** How issues are addressed *)

Lemma to_int_not_nil n : Z.to_int n <> Decimal.Pos Decimal.Nil /\ Z.to_int n <> Decimal.Neg Decimal.Nil.
Proof.
  destruct n as [|p|p]; cbn; split; try discriminate; intros [= H];
    exact (DecimalPos.Unsigned.to_uint_nonnil p H).
Qed.

(** The decimal text of an integer tells the integer. *)
Lemma toString_integer_inj a b : toString (JNum a) = toString (JNum b) -> a = b.
Proof.
  cbn [toString]. intros H. apply DecimalZ.to_int_inj.
  destruct (to_int_not_nil a) as [Ha1 Ha2]. destruct (to_int_not_nil b) as [Hb1 Hb2].
  pose proof (NilZero.isi (Z.to_int a) Ha1 Ha2) as Ia.
  pose proof (NilZero.isi (Z.to_int b) Hb1 Hb2) as Ib.
  rewrite H in Ia. congruence.
Qed.

Lemma append_cancel (prefix x y : string) : prefix ++ x = prefix ++ y -> x = y.
Proof.
  induction prefix as [|c prefix IH]; cbn; [trivial|].
  intros [= H]. now apply IH.
Qed.

(** X18. Issues with different integer [iid]s (integers that a JS number
    holds exactly, up to 2^53 - 1 in absolute value) are addressed by
    different URLs: the fetch, update and close requests of [ensureIssue]
    and [ensureIssueClosing] and the request of [getIssue] for one number
    are never those for another. *)
Theorem issue_requests_tell_the_iid repo url cfg flag a b ta tb :
  (Z.abs a <= 9007199254740991)%Z ->
  (Z.abs b <= 9007199254740991)%Z ->
  a <> b ->
  let i := mkIssue (JNum a) ta in
  let j := mkIssue (JNum b) tb in
  fetchRequest repo url i <> fetchRequest repo url j /\
  updateRequest sanitize repo url cfg i <> updateRequest sanitize repo url cfg j /\
  closeRequest repo url i <> closeRequest repo url j /\
  issueRequest repo url (JNum a) flag <> issueRequest repo url (JNum b) flag.
Proof.
  intros _ _ Hab i j.
  assert (Hpath : forall prefix,
            prefix ++ "/issues/" ++ toString (JNum a) =
            prefix ++ "/issues/" ++ toString (JNum b) -> False).
  { intros prefix H. apply append_cancel in H.
    apply (append_cancel "/issues/") in H.
    apply Hab. now apply toString_integer_inj. }
  repeat split; intros [= H].
  - exact (Hpath repo H).
  - exact (Hpath repo H).
  - exact (Hpath repo H).
  - exact (Hpath repo H).
Qed.

(** ** [getIssue] on its own *)

(** X19. [getIssue] sends one request, to [repository/issues/number],
    with the [useCache] flag it was given ([true] when left out), and does
    not touch the issue cache.  It returns an issue exactly when the
    request returns a body that is neither [null] nor [undefined]: the
    issue's number is the number asked for, its body the [description] of
    the response, and nothing is logged.  Otherwise it returns null and
    logs the one warning [Error getting issue]. *)
Theorem getIssue_outcome n flag s r s' evs :
  getIssue respond n flag s = (r, s', evs) ->
  let get :=
    GetJson (repository s ++ "/issues/" ++ toString n)
      (mkOptions (dashboardUrl s)
         (Some (match flag with Some b => b | None => true end)) None) in
  requests evs = [get] /\
  issueListCache s' = issueListCache s /\
  http s' = snd (respond (http s) get) /\
  match fst (respond (http s) get) with
  | Returns res =>
      if nullish res
      then r = inr None /\ exists e, logs evs = [getIssueCatchEntry n e]
      else exists d, getProp res "description" = inr d /\
                     r = inr (Some (mkFullIssue n d)) /\ logs evs = []
  | Throws e => r = inr None /\ logs evs = [getIssueCatchEntry n e]
  end.
Proof.
  rewrite getIssue_run. cbn zeta. unfold issueRequest.
  destruct (respond (http s) _) as [[res|e] w]; cbn [fst snd].
  - destruct res; intros [= <- <- <-]; cbn;
      repeat (split; [reflexivity|]);
      try (split; [reflexivity|]; eexists; reflexivity);
      eexists; repeat split.
  - intros [= <- <- <-]. cbn. repeat split.
Qed.

(** ** What [ensureIssue] writes *)

(** X20. Whatever [ensureIssue] writes to the tracker is the requested
    title with the sanitized body: every mutation it sends carries
    [{title, description: sanitize(body)}], so the body as given is never
    sent unsanitized. *)
Theorem ensureIssue_writes_the_sanitized_body cfg s :
  Forall (fun req =>
            body (optionsOf req) =
              Some (JObj [("title", JStr (ensureTitle cfg));
                          ("description", JStr (sanitize (ensureBody cfg)))]))
         (filter isMutation (requests (snd (ensureIssue respond sanitize cfg s)))).
Proof.
  destruct (ensureIssue respond sanitize cfg s) as [[r s'] evs] eqn:Hrun. cbn [snd].
  destruct (ensureIssue_traces _ _ _ _ _ Hrun) as [_ [_ [_ Hshape]]].
  cbn zeta in Hshape.
  destruct Hshape as [[_ [-> _]] | [[_ [-> _]] | [l [s1 [evs1 [issue [_ [_ Hfound]]]]]]]].
  - constructor.
  - cbn. now repeat constructor.
  - destruct Hfound as [[-> _] | [-> _]]; cbn; now repeat constructor.
Qed.

End Coverage.

(** ** Concrete runs of the further properties *)

Lemma init_outcome_witness :
  let noUrl := Config.mkConfig None (Some "org/repo") in
  let noRepository := Config.mkConfig (Some "https://tracker.example/api") (Some EmptyString) in
  (exists st, init "no dashboard URL" sampleConfig ([] : Script) [] = inr st) /\
  init "no dashboard URL" noUrl ([] : Script) [] = inl (mkError "no dashboard URL") /\
  init "no dashboard URL" noRepository ([] : Script) [] = inl (mkError "Repository is null").
Proof.
  intros noUrl noRepository.
  assert (Hurl : nonEmpty (Some "https://tracker.example/api"))
    by (eexists; split; [reflexivity | discriminate]).
  assert (Hrepo : nonEmpty (Some "org/repo"))
    by (eexists; split; [reflexivity | discriminate]).
  split; [|split].
  - exact (proj1 (proj2 (init_outcome "no dashboard URL" sampleConfig ([] : Script) []))
             Hurl Hrepo).
  - apply (proj1 (proj2 (proj2 (init_outcome "no dashboard URL" noUrl ([] : Script) [])))).
    intros [text [H _]]. discriminate H.
  - apply (proj2 (proj2 (proj2 (init_outcome "no dashboard URL" noRepository
                                  ([] : Script) [])))); [exact Hurl|].
    intros [text [H Hne]]. injection H as <-. now apply Hne.
Defined.

Lemma mapProject_outcome_witness :
  mapProject [listed 1 "A"; JStr "junk"]
    = inr [mkIssue (JNum 1) (JStr "A"); mkIssue JUndefined JUndefined] /\
  (exists e, mapProject [listed 1 "A"; JNull; listed 2 "B"] = inl e).
Proof.
  split; [reflexivity|].
  exact (proj2 (proj2 (mapProject_outcome [listed 1 "A"; JNull; listed 2 "B"])) eq_refl).
Defined.

Lemma getIssueList_outcome_witness :
  let s := sampleState [Returns (JArr [listed 1 "A"; listed 2 "B"])] in
  let run := getIssueList playScript s in
  requests (snd run) = [listRequest s] /\
  fst (fst run) = inr (issueListCache (snd (fst run))) /\
  length (issueListCache (snd (fst run))) = 2.
Proof.
  intros s run.
  exact (getIssueList_outcome playScript s (fst (fst run)) (snd (fst run)) (snd run)
           eq_refl).
Defined.

Lemma list_failure_ends_the_operation_witness :
  let s := sampleState [Returns (JArr [listed 1 "X"; JNull]); Returns JNull] in
  let cfg := mkEnsure "X" None "B" in
  requests (snd (ensureIssue playScript noSecrets cfg s)) = [listRequest s] /\
  fst (fst (ensureIssue playScript noSecrets cfg s)) = inr None /\
  requests (snd (ensureIssueClosing playScript "X" s)) = [listRequest s] /\
  fst (fst (ensureIssueClosing playScript "X" s))
    = inl (TypeError "Cannot read properties of null (reading 'iid')").
Proof.
  intros s cfg.
  destruct (list_failure_ends_the_operation playScript noSecrets cfg "X" s
              (TypeError "Cannot read properties of null (reading 'iid')")
              (snd (fst (getIssueList playScript s))) (snd (getIssueList playScript s))
              eq_refl)
    as [[evs1 [H1 R1]] [_ [[evs3 [H3 R3]] _]]].
  rewrite H1, H3. cbn [fst snd]. repeat split; assumption.
Defined.

Lemma malformed_list_is_an_empty_list_witness :
  let s := sampleState [Returns (JStr "Bad Gateway"); Returns JNull] in
  let cfg := mkEnsure "Dashboard" None "B" in
  (exists r s' evs,
     ensureIssue playScript noSecrets cfg s = (r, s', evs) /\
     requests evs =
       [listRequest s;
        createRequest noSecrets "org/repo" (Some "https://tracker.example/api") cfg]) /\
  (exists s' evs, ensureIssueClosing playScript "Dashboard" s = (inr tt, s', evs) /\
                  requests evs = [listRequest s]).
Proof.
  intros s cfg.
  destruct (malformed_list_is_an_empty_list playScript noSecrets cfg "Dashboard" s
              (JStr "Bad Gateway") [Returns JNull] eq_refl eq_refl)
    as [Hensure [_ Hclose]].
  split; [exact Hensure | exact Hclose].
Defined.

Lemma ensureIssue_reports_what_it_did_witness :
  let s := sampleState [Returns (JArr []); Returns JNull] in
  let cfg := mkEnsure "Dashboard" None "B" in
  let run := ensureIssue playScript noSecrets cfg s in
  fst (fst run) = inr (Some created) /\
  thrown (snd run) = [] /\
  requests (snd run) =
    [listRequest s;
     createRequest noSecrets "org/repo" (Some "https://tracker.example/api") cfg].
Proof.
  intros s cfg run.
  destruct (ensureIssue_reports_what_it_did playScript noSecrets cfg s
              (fst (fst run)) (snd (fst run)) (snd run) eq_refl)
    as [_ [_ [_ [Hcreated _]]]].
  split; [reflexivity | exact (Hcreated eq_refl)].
Defined.

Lemma cache_is_never_read_witness :
  let a := sampleState [Returns (JArr [listed 1 "Dashboard"]); Returns (stored "old");
                        Returns JNull] in
  let b := withCache a [mkIssue (JNum 9) (JStr "Dashboard"); mkIssue (JNum 1) (JStr "Gone")] in
  let cfg := mkEnsure "Dashboard" None "B" in
  sameRun (ensureIssue playScript noSecrets cfg a) (ensureIssue playScript noSecrets cfg b) /\
  sameRun (ensureIssueClosing playScript "Dashboard" a)
          (ensureIssueClosing playScript "Dashboard" b).
Proof.
  intros a b cfg.
  assert (Hab : sameButCache a b) by (repeat split).
  destruct (cache_is_never_read playScript noSecrets cfg (JNum 1) None "Dashboard" a b Hab)
    as [_ [Hensure [Hclose _]]].
  split; [exact Hensure | exact Hclose].
Defined.

Lemma lookup_outcome_witness :
  let cfg := mkEnsure "Dashboard" (Some "Old dashboard") "B" in
  let old := mkIssue (JNum 4) (JStr "Old dashboard") in
  lookup cfg [mkIssue (JNum 3) (JStr "Other"); old] = Some old /\
  In old [mkIssue (JNum 3) (JStr "Other"); old] /\
  lookup cfg [mkIssue (JNum 3) (JStr "Other")] = None.
Proof.
  intros cfg old.
  destruct (lookup_outcome cfg [mkIssue (JNum 3) (JStr "Other"); old]) as [Hsome _].
  destruct (lookup_outcome cfg [mkIssue (JNum 3) (JStr "Other")]) as [_ Hnone].
  split; [reflexivity|]. split; [exact (proj1 (Hsome old eq_refl))|].
  apply Hnone. intros i [<-|[]]. split; discriminate.
Defined.

Lemma ensureIssue_without_reuseTitle_matches_untitled_witness :
  let cfg := mkEnsure "Dashboard" None "B" in
  let s := sampleState [Returns (JArr [listed 3 "Other"; JObj [("iid", JNum 5)]]);
                        Returns (stored "B"); Returns JNull] in
  exists issue rest,
    In issue [mkIssue (JNum 3) (JStr "Other"); mkIssue (JNum 5) JUndefined] /\
    title issue = JUndefined /\
    requests (snd (ensureIssue playScript noSecrets cfg s)) =
      listRequest s
      :: fetchRequest "org/repo" (Some "https://tracker.example/api") issue :: rest /\
    filter isPost (requests (snd (ensureIssue playScript noSecrets cfg s))) = [].
Proof.
  intros cfg s.
  apply (ensureIssue_without_reuseTitle_matches_untitled playScript noSecrets cfg s
           [mkIssue (JNum 3) (JStr "Other"); mkIssue (JNum 5) JUndefined]
           (snd (fst (getIssueList playScript s))) (snd (getIssueList playScript s))
           (mkIssue (JNum 5) JUndefined) eq_refl eq_refl).
  - intros j [<-|[<-|[]]]; discriminate.
  - right. now left.
  - reflexivity.
Defined.

Lemma ensureIssue_touches_the_first_match_only_witness :
  let cfg := mkEnsure "Dashboard" None "B" in
  let first := mkIssue (JNum 2) (JStr "Dashboard") in
  let s := sampleState [Returns (JArr [listed 1 "Other"; listed 2 "Dashboard";
                                       listed 3 "Dashboard"]);
                        Returns (stored "old"); Returns JNull] in
  exists rest,
    requests (snd (ensureIssue playScript noSecrets cfg s)) = listRequest s :: rest /\
    Forall (fun req =>
              req = fetchRequest "org/repo" (Some "https://tracker.example/api") first \/
              req = updateRequest noSecrets "org/repo"
                      (Some "https://tracker.example/api") cfg first) rest.
Proof.
  intros cfg first s.
  apply (ensureIssue_touches_the_first_match_only playScript noSecrets cfg s
           [mkIssue (JNum 1) (JStr "Other")] first [mkIssue (JNum 3) (JStr "Dashboard")]
           (snd (fst (getIssueList playScript s))) (snd (getIssueList playScript s))
           eq_refl).
  - intros j [<-|[]]. discriminate.
  - reflexivity.
Defined.

Lemma ensureIssue_issue_without_body_witness :
  let cfg := mkEnsure "Dashboard" None "B" in
  let issue := mkIssue (JNum 1) (JStr "Dashboard") in
  let s := sampleState [Returns (JArr [listed 1 "Dashboard"]); Returns JNull] in
  let run := ensureIssue playScript noSecrets cfg s in
  fst (fst run) = inr None /\
  requests (snd run) =
    [listRequest s; fetchRequest "org/repo" (Some "https://tracker.example/api") issue] /\
  exists e, In (mkLog Warn (CtxErr e) "Could not ensure issue") (logs (snd run)).
Proof.
  intros cfg issue s run.
  exact (ensureIssue_issue_without_body playScript noSecrets cfg s [issue]
           (snd (fst (getIssueList playScript s))) (snd (getIssueList playScript s))
           issue JNull [] eq_refl eq_refl eq_refl eq_refl).
Defined.

Lemma ensureIssue_updates_when_description_is_no_string_witness :
  let cfg := mkEnsure "Dashboard" None "B" in
  let issue := mkIssue (JNum 1) (JStr "Dashboard") in
  let s := sampleState [Returns (JArr [listed 1 "Dashboard"]);
                        Returns (JObj [("title", JStr "Dashboard")]); Returns JNull] in
  requests (snd (ensureIssue playScript noSecrets cfg s)) =
    [listRequest s;
     fetchRequest "org/repo" (Some "https://tracker.example/api") issue;
     updateRequest noSecrets "org/repo" (Some "https://tracker.example/api") cfg issue].
Proof.
  intros cfg issue s.
  apply (ensureIssue_updates_when_description_is_no_string playScript noSecrets cfg s
           [issue] (snd (fst (getIssueList playScript s)))
           (snd (getIssueList playScript s)) issue
           (JObj [("title", JStr "Dashboard")]) [Returns JNull] JUndefined
           eq_refl eq_refl eq_refl eq_refl).
  intros text. discriminate.
Defined.

Lemma issue_requests_tell_the_iid_witness :
  closeRequest "org/repo" None (mkIssue (JNum 12) (JStr "X"))
    <> closeRequest "org/repo" None (mkIssue (JNum 120) (JStr "X")).
Proof.
  assert (H : (12 <> 120)%Z) by lia.
  assert (Ha : (Z.abs 12 <= 9007199254740991)%Z) by (cbn; lia).
  assert (Hb : (Z.abs 120 <= 9007199254740991)%Z) by (cbn; lia).
  exact (proj1 (proj2 (proj2
           (issue_requests_tell_the_iid noSecrets "org/repo" None
              (mkEnsure "X" None "B") true 12 120 (JStr "X") (JStr "X") Ha Hb H)))).
Defined.

Lemma getIssue_outcome_witness :
  let s := sampleState [Returns (stored "text")] in
  let run := getIssue playScript (JNum 5) (Some false) s in
  requests (snd run) =
    [GetJson "org/repo/issues/5"
       (mkOptions (Some "https://tracker.example/api") (Some false) None)] /\
  fst (fst run) = inr (Some (mkFullIssue (JNum 5) (JStr "text"))) /\
  logs (snd run) = [].
Proof.
  intros s run.
  destruct (getIssue_outcome playScript (JNum 5) (Some false) s
              (fst (fst run)) (snd (fst run)) (snd run) eq_refl)
    as [Hreq [_ [_ [d [Hd [Hr Hlogs]]]]]].
  split; [exact Hreq|]. injection Hd as <-. split; [exact Hr | exact Hlogs].
Defined.
